(** * The search flow of the stock-chart component (src/App.js)

    A shallow embedding of the [App] component: its four [useState] cells,
    the [onChange] handler of the ticker input and the asynchronous
    [handleSearch] handler of the search button.

    - JavaScript values are a small inductive type ([jsval]); numbers are
      IEEE-754 doubles in the representation of [SpecFloat].
    - Strings are byte strings holding UTF-8 text, so the two Japanese
      messages of the source are kept verbatim.
    - An asynchronous function is a tree of effects ([task]): calls of the
      state setters and of [console.error], one [await] node per awaited
      promise, and JavaScript exceptions.  [try]/[catch]/[finally] are
      combinators on such trees.
    - Setter calls are applied to the component state in call order, which
      is the state React commits once the handler yields or finishes. *)

Set Warnings "-register-all".
From Stdlib Require Import String Ascii List Bool ZArith NArith Lia FunInd.
From Stdlib Require Import Floats.SpecFloat.
From ExtLib Require Import Structures.Monad Structures.MonadExc.
Import ListNotations.
Import MonadNotation.
Local Open Scope monad_scope.
Local Open Scope string_scope.

(* ===================================================================== *)
(** ** JavaScript values *)
(* ===================================================================== *)

Module JS.

(** The values a parsed JSON body, a state cell or a thrown exception can
    hold.  The fields of an object are kept in insertion order; a parsed
    object has no two fields of the same name. *)
Inductive jsval : Type :=
| JUndefined
| JNull
| JBool (b : bool)
| JNum (x : spec_float)
| JStr (s : string)
| JArr (items : list jsval)
| JObj (fields : list (string * jsval)).

(** A double from an integer literal such as [100]. *)
Definition number (z : Z) : jsval := JNum (binary_normalize 53 1024 z 0 false).

(** ToBoolean: what [if (v)], [!v] and [v && ...] test. *)
Definition truthy (v : jsval) : bool :=
  match v with
  | JUndefined => false
  | JNull => false
  | JBool b => b
  | JNum (S754_zero _) => false
  | JNum S754_nan => false
  | JNum _ => true
  | JStr EmptyString => false
  | JStr (String _ _) => true
  | JArr _ => true
  | JObj _ => true
  end.

(** First binding of [key] in a field list. *)
Fixpoint assoc (key : string) (fields : list (string * jsval)) : option jsval :=
  match fields with
  | [] => None
  | (k, v) :: rest => if String.eqb k key then Some v else assoc key rest
  end.

(** The own field [key] of a value, if it is an object that has one. *)
Definition own_field (key : string) (v : jsval) : option jsval :=
  match v with
  | JObj fields => assoc key fields
  | _ => None
  end.

(** The exception raised by a property read on [null] or [undefined].
    Its message differs between engines and is left out. *)
Definition TypeError : jsval := JObj [("name", JStr "TypeError")].

(** [v.error], as a result: [inl] is the thrown exception.  The read throws
    on [null] and [undefined]; on every other value it yields the own field
    or, as no built-in prototype has a property of that name, [undefined]. *)
Definition read_error (v : jsval) : jsval + jsval :=
  match v with
  | JUndefined => inl TypeError
  | JNull => inl TypeError
  | _ => match own_field "error" v with
         | Some x => inr x
         | None => inr JUndefined
         end
  end.

(** The upper-case mapping of an ASCII character: the letters a-z. *)
Definition upper_char (c : ascii) : ascii :=
  let n := N_of_ascii c in
  if ((97 <=? n) && (n <=? 122))%N then ascii_of_N (n - 32) else c.

(** The UTF-8 encoding of a code point. *)
Definition utf8 (c : N) : string :=
  (if c <? 0x80 then
     String (ascii_of_N c) ""
   else if c <? 0x800 then
     String (ascii_of_N (0xC0 + c / 0x40))
       (String (ascii_of_N (0x80 + c mod 0x40)) "")
   else if c <? 0x10000 then
     String (ascii_of_N (0xE0 + c / 0x1000))
       (String (ascii_of_N (0x80 + (c / 0x40) mod 0x40))
          (String (ascii_of_N (0x80 + c mod 0x40)) ""))
   else
     String (ascii_of_N (0xF0 + c / 0x40000))
       (String (ascii_of_N (0x80 + (c / 0x1000) mod 0x40))
          (String (ascii_of_N (0x80 + (c / 0x40) mod 0x40))
             (String (ascii_of_N (0x80 + c mod 0x40)) ""))))%N.

Fixpoint utf8_text (cs : list N) : string :=
  match cs with
  | [] => ""
  | c :: rest => utf8 c ++ utf8_text rest
  end.

(** The code points above U+007F that upper-casing changes, each with the
    code points it becomes (Unicode 14.0: the simple mappings of
    UnicodeData.txt and the unconditional ones of SpecialCasing.txt). *)
Definition case_mappings : list (N * list N) :=
  (
   [(0xB5, [0x39C]); (0xDF, [0x53; 0x53]); (0xE0, [0xC0]); (0xE1, [0xC1]);
    (0xE2, [0xC2]); (0xE3, [0xC3]); (0xE4, [0xC4]); (0xE5, [0xC5]);
    (0xE6, [0xC6]); (0xE7, [0xC7]); (0xE8, [0xC8]); (0xE9, [0xC9]);
    (0xEA, [0xCA]); (0xEB, [0xCB]); (0xEC, [0xCC]); (0xED, [0xCD]);
    (0xEE, [0xCE]); (0xEF, [0xCF]); (0xF0, [0xD0]); (0xF1, [0xD1]);
    (0xF2, [0xD2]); (0xF3, [0xD3]); (0xF4, [0xD4]); (0xF5, [0xD5]);
    (0xF6, [0xD6]); (0xF8, [0xD8]); (0xF9, [0xD9]); (0xFA, [0xDA]);
    (0xFB, [0xDB]); (0xFC, [0xDC]); (0xFD, [0xDD]); (0xFE, [0xDE]);
    (0xFF, [0x178]); (0x101, [0x100]); (0x103, [0x102]); (0x105, [0x104]);
    (0x107, [0x106]); (0x109, [0x108]); (0x10B, [0x10A]); (0x10D, [0x10C]);
    (0x10F, [0x10E]); (0x111, [0x110]); (0x113, [0x112]); (0x115, [0x114]);
    (0x117, [0x116]); (0x119, [0x118]); (0x11B, [0x11A]); (0x11D, [0x11C]);
    (0x11F, [0x11E]); (0x121, [0x120]); (0x123, [0x122]); (0x125, [0x124]);
    (0x127, [0x126]); (0x129, [0x128]); (0x12B, [0x12A]); (0x12D, [0x12C]);
    (0x12F, [0x12E]); (0x131, [0x49]); (0x133, [0x132]); (0x135, [0x134]);
    (0x137, [0x136]); (0x13A, [0x139]); (0x13C, [0x13B]); (0x13E, [0x13D]);
    (0x140, [0x13F]); (0x142, [0x141]); (0x144, [0x143]); (0x146, [0x145]);
    (0x148, [0x147]); (0x149, [0x2BC; 0x4E]); (0x14B, [0x14A]);
    (0x14D, [0x14C]); (0x14F, [0x14E]); (0x151, [0x150]); (0x153, [0x152]);
    (0x155, [0x154]); (0x157, [0x156]); (0x159, [0x158]); (0x15B, [0x15A]);
    (0x15D, [0x15C]); (0x15F, [0x15E]); (0x161, [0x160]); (0x163, [0x162]);
    (0x165, [0x164]); (0x167, [0x166]); (0x169, [0x168]); (0x16B, [0x16A]);
    (0x16D, [0x16C]); (0x16F, [0x16E]); (0x171, [0x170]); (0x173, [0x172]);
    (0x175, [0x174]); (0x177, [0x176]); (0x17A, [0x179]); (0x17C, [0x17B]);
    (0x17E, [0x17D]); (0x17F, [0x53]); (0x180, [0x243]); (0x183, [0x182]);
    (0x185, [0x184]); (0x188, [0x187]); (0x18C, [0x18B]); (0x192, [0x191]);
    (0x195, [0x1F6]); (0x199, [0x198]); (0x19A, [0x23D]); (0x19E, [0x220]);
    (0x1A1, [0x1A0]); (0x1A3, [0x1A2]); (0x1A5, [0x1A4]); (0x1A8, [0x1A7]);
    (0x1AD, [0x1AC]); (0x1B0, [0x1AF]); (0x1B4, [0x1B3]); (0x1B6, [0x1B5]);
    (0x1B9, [0x1B8]); (0x1BD, [0x1BC]); (0x1BF, [0x1F7]); (0x1C5, [0x1C4]);
    (0x1C6, [0x1C4]); (0x1C8, [0x1C7]); (0x1C9, [0x1C7]); (0x1CB, [0x1CA]);
    (0x1CC, [0x1CA]); (0x1CE, [0x1CD]); (0x1D0, [0x1CF]); (0x1D2, [0x1D1]);
    (0x1D4, [0x1D3]); (0x1D6, [0x1D5]); (0x1D8, [0x1D7]); (0x1DA, [0x1D9]);
    (0x1DC, [0x1DB]); (0x1DD, [0x18E]); (0x1DF, [0x1DE]); (0x1E1, [0x1E0]);
    (0x1E3, [0x1E2]); (0x1E5, [0x1E4]); (0x1E7, [0x1E6]); (0x1E9, [0x1E8]);
    (0x1EB, [0x1EA]); (0x1ED, [0x1EC]); (0x1EF, [0x1EE]);
    (0x1F0, [0x4A; 0x30C]); (0x1F2, [0x1F1]); (0x1F3, [0x1F1]);
    (0x1F5, [0x1F4]); (0x1F9, [0x1F8]); (0x1FB, [0x1FA]); (0x1FD, [0x1FC]);
    (0x1FF, [0x1FE]); (0x201, [0x200]); (0x203, [0x202]); (0x205, [0x204]);
    (0x207, [0x206]); (0x209, [0x208]); (0x20B, [0x20A]); (0x20D, [0x20C]);
    (0x20F, [0x20E]); (0x211, [0x210]); (0x213, [0x212]); (0x215, [0x214]);
    (0x217, [0x216]); (0x219, [0x218]); (0x21B, [0x21A]); (0x21D, [0x21C]);
    (0x21F, [0x21E]); (0x223, [0x222]); (0x225, [0x224]); (0x227, [0x226]);
    (0x229, [0x228]); (0x22B, [0x22A]); (0x22D, [0x22C]); (0x22F, [0x22E]);
    (0x231, [0x230]); (0x233, [0x232]); (0x23C, [0x23B]); (0x23F, [0x2C7E]);
    (0x240, [0x2C7F]); (0x242, [0x241]); (0x247, [0x246]); (0x249, [0x248]);
    (0x24B, [0x24A]); (0x24D, [0x24C]); (0x24F, [0x24E]); (0x250, [0x2C6F]);
    (0x251, [0x2C6D]); (0x252, [0x2C70]); (0x253, [0x181]); (0x254, [0x186]);
    (0x256, [0x189]); (0x257, [0x18A]); (0x259, [0x18F]); (0x25B, [0x190]);
    (0x25C, [0xA7AB]); (0x260, [0x193]); (0x261, [0xA7AC]); (0x263, [0x194]);
    (0x265, [0xA78D]); (0x266, [0xA7AA]); (0x268, [0x197]); (0x269, [0x196]);
    (0x26A, [0xA7AE]); (0x26B, [0x2C62]); (0x26C, [0xA7AD]); (0x26F, [0x19C]);
    (0x271, [0x2C6E]); (0x272, [0x19D]); (0x275, [0x19F]); (0x27D, [0x2C64]);
    (0x280, [0x1A6]); (0x282, [0xA7C5]); (0x283, [0x1A9]); (0x287, [0xA7B1]);
    (0x288, [0x1AE]); (0x289, [0x244]); (0x28A, [0x1B1]); (0x28B, [0x1B2]);
    (0x28C, [0x245]); (0x292, [0x1B7]); (0x29D, [0xA7B2]); (0x29E, [0xA7B0]);
    (0x345, [0x399]); (0x371, [0x370]); (0x373, [0x372]); (0x377, [0x376]);
    (0x37B, [0x3FD]); (0x37C, [0x3FE]); (0x37D, [0x3FF]);
    (0x390, [0x399; 0x308; 0x301]); (0x3AC, [0x386]); (0x3AD, [0x388]);
    (0x3AE, [0x389]); (0x3AF, [0x38A]); (0x3B0, [0x3A5; 0x308; 0x301]);
    (0x3B1, [0x391]); (0x3B2, [0x392]); (0x3B3, [0x393]); (0x3B4, [0x394]);
    (0x3B5, [0x395]); (0x3B6, [0x396]); (0x3B7, [0x397]); (0x3B8, [0x398]);
    (0x3B9, [0x399]); (0x3BA, [0x39A]); (0x3BB, [0x39B]); (0x3BC, [0x39C]);
    (0x3BD, [0x39D]); (0x3BE, [0x39E]); (0x3BF, [0x39F]); (0x3C0, [0x3A0]);
    (0x3C1, [0x3A1]); (0x3C2, [0x3A3]); (0x3C3, [0x3A3]); (0x3C4, [0x3A4]);
    (0x3C5, [0x3A5]); (0x3C6, [0x3A6]); (0x3C7, [0x3A7]); (0x3C8, [0x3A8]);
    (0x3C9, [0x3A9]); (0x3CA, [0x3AA]); (0x3CB, [0x3AB]); (0x3CC, [0x38C]);
    (0x3CD, [0x38E]); (0x3CE, [0x38F]); (0x3D0, [0x392]); (0x3D1, [0x398]);
    (0x3D5, [0x3A6]); (0x3D6, [0x3A0]); (0x3D7, [0x3CF]); (0x3D9, [0x3D8]);
    (0x3DB, [0x3DA]); (0x3DD, [0x3DC]); (0x3DF, [0x3DE]); (0x3E1, [0x3E0]);
    (0x3E3, [0x3E2]); (0x3E5, [0x3E4]); (0x3E7, [0x3E6]); (0x3E9, [0x3E8]);
    (0x3EB, [0x3EA]); (0x3ED, [0x3EC]); (0x3EF, [0x3EE]); (0x3F0, [0x39A]);
    (0x3F1, [0x3A1]); (0x3F2, [0x3F9]); (0x3F3, [0x37F]); (0x3F5, [0x395]);
    (0x3F8, [0x3F7]); (0x3FB, [0x3FA]); (0x430, [0x410]); (0x431, [0x411]);
    (0x432, [0x412]); (0x433, [0x413]); (0x434, [0x414]); (0x435, [0x415]);
    (0x436, [0x416]); (0x437, [0x417]); (0x438, [0x418]); (0x439, [0x419]);
    (0x43A, [0x41A]); (0x43B, [0x41B]); (0x43C, [0x41C]); (0x43D, [0x41D]);
    (0x43E, [0x41E]); (0x43F, [0x41F]); (0x440, [0x420]); (0x441, [0x421]);
    (0x442, [0x422]); (0x443, [0x423]); (0x444, [0x424]); (0x445, [0x425]);
    (0x446, [0x426]); (0x447, [0x427]); (0x448, [0x428]); (0x449, [0x429]);
    (0x44A, [0x42A]); (0x44B, [0x42B]); (0x44C, [0x42C]); (0x44D, [0x42D]);
    (0x44E, [0x42E]); (0x44F, [0x42F]); (0x450, [0x400]); (0x451, [0x401]);
    (0x452, [0x402]); (0x453, [0x403]); (0x454, [0x404]); (0x455, [0x405]);
    (0x456, [0x406]); (0x457, [0x407]); (0x458, [0x408]); (0x459, [0x409]);
    (0x45A, [0x40A]); (0x45B, [0x40B]); (0x45C, [0x40C]); (0x45D, [0x40D]);
    (0x45E, [0x40E]); (0x45F, [0x40F]); (0x461, [0x460]); (0x463, [0x462]);
    (0x465, [0x464]); (0x467, [0x466]); (0x469, [0x468]); (0x46B, [0x46A]);
    (0x46D, [0x46C]); (0x46F, [0x46E]); (0x471, [0x470]); (0x473, [0x472]);
    (0x475, [0x474]); (0x477, [0x476]); (0x479, [0x478]); (0x47B, [0x47A]);
    (0x47D, [0x47C]); (0x47F, [0x47E]); (0x481, [0x480]); (0x48B, [0x48A]);
    (0x48D, [0x48C]); (0x48F, [0x48E]); (0x491, [0x490]); (0x493, [0x492]);
    (0x495, [0x494]); (0x497, [0x496]); (0x499, [0x498]); (0x49B, [0x49A]);
    (0x49D, [0x49C]); (0x49F, [0x49E]); (0x4A1, [0x4A0]); (0x4A3, [0x4A2]);
    (0x4A5, [0x4A4]); (0x4A7, [0x4A6]); (0x4A9, [0x4A8]); (0x4AB, [0x4AA]);
    (0x4AD, [0x4AC]); (0x4AF, [0x4AE]); (0x4B1, [0x4B0]); (0x4B3, [0x4B2]);
    (0x4B5, [0x4B4]); (0x4B7, [0x4B6]); (0x4B9, [0x4B8]); (0x4BB, [0x4BA]);
    (0x4BD, [0x4BC]); (0x4BF, [0x4BE]); (0x4C2, [0x4C1]); (0x4C4, [0x4C3]);
    (0x4C6, [0x4C5]); (0x4C8, [0x4C7]); (0x4CA, [0x4C9]); (0x4CC, [0x4CB]);
    (0x4CE, [0x4CD]); (0x4CF, [0x4C0]); (0x4D1, [0x4D0]); (0x4D3, [0x4D2]);
    (0x4D5, [0x4D4]); (0x4D7, [0x4D6]); (0x4D9, [0x4D8]); (0x4DB, [0x4DA]);
    (0x4DD, [0x4DC]); (0x4DF, [0x4DE]); (0x4E1, [0x4E0]); (0x4E3, [0x4E2]);
    (0x4E5, [0x4E4]); (0x4E7, [0x4E6]); (0x4E9, [0x4E8]); (0x4EB, [0x4EA]);
    (0x4ED, [0x4EC]); (0x4EF, [0x4EE]); (0x4F1, [0x4F0]); (0x4F3, [0x4F2]);
    (0x4F5, [0x4F4]); (0x4F7, [0x4F6]); (0x4F9, [0x4F8]); (0x4FB, [0x4FA]);
    (0x4FD, [0x4FC]); (0x4FF, [0x4FE]); (0x501, [0x500]); (0x503, [0x502]);
    (0x505, [0x504]); (0x507, [0x506]); (0x509, [0x508]); (0x50B, [0x50A]);
    (0x50D, [0x50C]); (0x50F, [0x50E]); (0x511, [0x510]); (0x513, [0x512]);
    (0x515, [0x514]); (0x517, [0x516]); (0x519, [0x518]); (0x51B, [0x51A]);
    (0x51D, [0x51C]); (0x51F, [0x51E]); (0x521, [0x520]); (0x523, [0x522]);
    (0x525, [0x524]); (0x527, [0x526]); (0x529, [0x528]); (0x52B, [0x52A]);
    (0x52D, [0x52C]); (0x52F, [0x52E]); (0x561, [0x531]); (0x562, [0x532]);
    (0x563, [0x533]); (0x564, [0x534]); (0x565, [0x535]); (0x566, [0x536]);
    (0x567, [0x537]); (0x568, [0x538]); (0x569, [0x539]); (0x56A, [0x53A]);
    (0x56B, [0x53B]); (0x56C, [0x53C]); (0x56D, [0x53D]); (0x56E, [0x53E]);
    (0x56F, [0x53F]); (0x570, [0x540]); (0x571, [0x541]); (0x572, [0x542]);
    (0x573, [0x543]); (0x574, [0x544]); (0x575, [0x545]); (0x576, [0x546]);
    (0x577, [0x547]); (0x578, [0x548]); (0x579, [0x549]); (0x57A, [0x54A]);
    (0x57B, [0x54B]); (0x57C, [0x54C]); (0x57D, [0x54D]); (0x57E, [0x54E]);
    (0x57F, [0x54F]); (0x580, [0x550]); (0x581, [0x551]); (0x582, [0x552]);
    (0x583, [0x553]); (0x584, [0x554]); (0x585, [0x555]); (0x586, [0x556]);
    (0x587, [0x535; 0x552]); (0x10D0, [0x1C90]); (0x10D1, [0x1C91]);
    (0x10D2, [0x1C92]); (0x10D3, [0x1C93]); (0x10D4, [0x1C94]);
    (0x10D5, [0x1C95]); (0x10D6, [0x1C96]); (0x10D7, [0x1C97]);
    (0x10D8, [0x1C98]); (0x10D9, [0x1C99]); (0x10DA, [0x1C9A]);
    (0x10DB, [0x1C9B]); (0x10DC, [0x1C9C]); (0x10DD, [0x1C9D]);
    (0x10DE, [0x1C9E]); (0x10DF, [0x1C9F]); (0x10E0, [0x1CA0]);
    (0x10E1, [0x1CA1]); (0x10E2, [0x1CA2]); (0x10E3, [0x1CA3]);
    (0x10E4, [0x1CA4]); (0x10E5, [0x1CA5]); (0x10E6, [0x1CA6]);
    (0x10E7, [0x1CA7]); (0x10E8, [0x1CA8]); (0x10E9, [0x1CA9]);
    (0x10EA, [0x1CAA]); (0x10EB, [0x1CAB]); (0x10EC, [0x1CAC]);
    (0x10ED, [0x1CAD]); (0x10EE, [0x1CAE]); (0x10EF, [0x1CAF]);
    (0x10F0, [0x1CB0]); (0x10F1, [0x1CB1]); (0x10F2, [0x1CB2]);
    (0x10F3, [0x1CB3]); (0x10F4, [0x1CB4]); (0x10F5, [0x1CB5]);
    (0x10F6, [0x1CB6]); (0x10F7, [0x1CB7]); (0x10F8, [0x1CB8]);
    (0x10F9, [0x1CB9]); (0x10FA, [0x1CBA]); (0x10FD, [0x1CBD]);
    (0x10FE, [0x1CBE]); (0x10FF, [0x1CBF]); (0x13F8, [0x13F0]);
    (0x13F9, [0x13F1]); (0x13FA, [0x13F2]); (0x13FB, [0x13F3]);
    (0x13FC, [0x13F4]); (0x13FD, [0x13F5]); (0x1C80, [0x412]);
    (0x1C81, [0x414]); (0x1C82, [0x41E]); (0x1C83, [0x421]);
    (0x1C84, [0x422]); (0x1C85, [0x422]); (0x1C86, [0x42A]);
    (0x1C87, [0x462]); (0x1C88, [0xA64A]); (0x1D79, [0xA77D]);
    (0x1D7D, [0x2C63]); (0x1D8E, [0xA7C6]); (0x1E01, [0x1E00]);
    (0x1E03, [0x1E02]); (0x1E05, [0x1E04]); (0x1E07, [0x1E06]);
    (0x1E09, [0x1E08]); (0x1E0B, [0x1E0A]); (0x1E0D, [0x1E0C]);
    (0x1E0F, [0x1E0E]); (0x1E11, [0x1E10]); (0x1E13, [0x1E12]);
    (0x1E15, [0x1E14]); (0x1E17, [0x1E16]); (0x1E19, [0x1E18]);
    (0x1E1B, [0x1E1A]); (0x1E1D, [0x1E1C]); (0x1E1F, [0x1E1E]);
    (0x1E21, [0x1E20]); (0x1E23, [0x1E22]); (0x1E25, [0x1E24]);
    (0x1E27, [0x1E26]); (0x1E29, [0x1E28]); (0x1E2B, [0x1E2A]);
    (0x1E2D, [0x1E2C]); (0x1E2F, [0x1E2E]); (0x1E31, [0x1E30]);
    (0x1E33, [0x1E32]); (0x1E35, [0x1E34]); (0x1E37, [0x1E36]);
    (0x1E39, [0x1E38]); (0x1E3B, [0x1E3A]); (0x1E3D, [0x1E3C]);
    (0x1E3F, [0x1E3E]); (0x1E41, [0x1E40]); (0x1E43, [0x1E42]);
    (0x1E45, [0x1E44]); (0x1E47, [0x1E46]); (0x1E49, [0x1E48]);
    (0x1E4B, [0x1E4A]); (0x1E4D, [0x1E4C]); (0x1E4F, [0x1E4E]);
    (0x1E51, [0x1E50]); (0x1E53, [0x1E52]); (0x1E55, [0x1E54]);
    (0x1E57, [0x1E56]); (0x1E59, [0x1E58]); (0x1E5B, [0x1E5A]);
    (0x1E5D, [0x1E5C]); (0x1E5F, [0x1E5E]); (0x1E61, [0x1E60]);
    (0x1E63, [0x1E62]); (0x1E65, [0x1E64]); (0x1E67, [0x1E66]);
    (0x1E69, [0x1E68]); (0x1E6B, [0x1E6A]); (0x1E6D, [0x1E6C]);
    (0x1E6F, [0x1E6E]); (0x1E71, [0x1E70]); (0x1E73, [0x1E72]);
    (0x1E75, [0x1E74]); (0x1E77, [0x1E76]); (0x1E79, [0x1E78]);
    (0x1E7B, [0x1E7A]); (0x1E7D, [0x1E7C]); (0x1E7F, [0x1E7E]);
    (0x1E81, [0x1E80]); (0x1E83, [0x1E82]); (0x1E85, [0x1E84]);
    (0x1E87, [0x1E86]); (0x1E89, [0x1E88]); (0x1E8B, [0x1E8A]);
    (0x1E8D, [0x1E8C]); (0x1E8F, [0x1E8E]); (0x1E91, [0x1E90]);
    (0x1E93, [0x1E92]); (0x1E95, [0x1E94]); (0x1E96, [0x48; 0x331]);
    (0x1E97, [0x54; 0x308]); (0x1E98, [0x57; 0x30A]); (0x1E99, [0x59; 0x30A]);
    (0x1E9A, [0x41; 0x2BE]); (0x1E9B, [0x1E60]); (0x1EA1, [0x1EA0]);
    (0x1EA3, [0x1EA2]); (0x1EA5, [0x1EA4]); (0x1EA7, [0x1EA6]);
    (0x1EA9, [0x1EA8]); (0x1EAB, [0x1EAA]); (0x1EAD, [0x1EAC]);
    (0x1EAF, [0x1EAE]); (0x1EB1, [0x1EB0]); (0x1EB3, [0x1EB2]);
    (0x1EB5, [0x1EB4]); (0x1EB7, [0x1EB6]); (0x1EB9, [0x1EB8]);
    (0x1EBB, [0x1EBA]); (0x1EBD, [0x1EBC]); (0x1EBF, [0x1EBE]);
    (0x1EC1, [0x1EC0]); (0x1EC3, [0x1EC2]); (0x1EC5, [0x1EC4]);
    (0x1EC7, [0x1EC6]); (0x1EC9, [0x1EC8]); (0x1ECB, [0x1ECA]);
    (0x1ECD, [0x1ECC]); (0x1ECF, [0x1ECE]); (0x1ED1, [0x1ED0]);
    (0x1ED3, [0x1ED2]); (0x1ED5, [0x1ED4]); (0x1ED7, [0x1ED6]);
    (0x1ED9, [0x1ED8]); (0x1EDB, [0x1EDA]); (0x1EDD, [0x1EDC]);
    (0x1EDF, [0x1EDE]); (0x1EE1, [0x1EE0]); (0x1EE3, [0x1EE2]);
    (0x1EE5, [0x1EE4]); (0x1EE7, [0x1EE6]); (0x1EE9, [0x1EE8]);
    (0x1EEB, [0x1EEA]); (0x1EED, [0x1EEC]); (0x1EEF, [0x1EEE]);
    (0x1EF1, [0x1EF0]); (0x1EF3, [0x1EF2]); (0x1EF5, [0x1EF4]);
    (0x1EF7, [0x1EF6]); (0x1EF9, [0x1EF8]); (0x1EFB, [0x1EFA]);
    (0x1EFD, [0x1EFC]); (0x1EFF, [0x1EFE]); (0x1F00, [0x1F08]);
    (0x1F01, [0x1F09]); (0x1F02, [0x1F0A]); (0x1F03, [0x1F0B]);
    (0x1F04, [0x1F0C]); (0x1F05, [0x1F0D]); (0x1F06, [0x1F0E]);
    (0x1F07, [0x1F0F]); (0x1F10, [0x1F18]); (0x1F11, [0x1F19]);
    (0x1F12, [0x1F1A]); (0x1F13, [0x1F1B]); (0x1F14, [0x1F1C]);
    (0x1F15, [0x1F1D]); (0x1F20, [0x1F28]); (0x1F21, [0x1F29]);
    (0x1F22, [0x1F2A]); (0x1F23, [0x1F2B]); (0x1F24, [0x1F2C]);
    (0x1F25, [0x1F2D]); (0x1F26, [0x1F2E]); (0x1F27, [0x1F2F]);
    (0x1F30, [0x1F38]); (0x1F31, [0x1F39]); (0x1F32, [0x1F3A]);
    (0x1F33, [0x1F3B]); (0x1F34, [0x1F3C]); (0x1F35, [0x1F3D]);
    (0x1F36, [0x1F3E]); (0x1F37, [0x1F3F]); (0x1F40, [0x1F48]);
    (0x1F41, [0x1F49]); (0x1F42, [0x1F4A]); (0x1F43, [0x1F4B]);
    (0x1F44, [0x1F4C]); (0x1F45, [0x1F4D]); (0x1F50, [0x3A5; 0x313]);
    (0x1F51, [0x1F59]); (0x1F52, [0x3A5; 0x313; 0x300]); (0x1F53, [0x1F5B]);
    (0x1F54, [0x3A5; 0x313; 0x301]); (0x1F55, [0x1F5D]);
    (0x1F56, [0x3A5; 0x313; 0x342]); (0x1F57, [0x1F5F]); (0x1F60, [0x1F68]);
    (0x1F61, [0x1F69]); (0x1F62, [0x1F6A]); (0x1F63, [0x1F6B]);
    (0x1F64, [0x1F6C]); (0x1F65, [0x1F6D]); (0x1F66, [0x1F6E]);
    (0x1F67, [0x1F6F]); (0x1F70, [0x1FBA]); (0x1F71, [0x1FBB]);
    (0x1F72, [0x1FC8]); (0x1F73, [0x1FC9]); (0x1F74, [0x1FCA]);
    (0x1F75, [0x1FCB]); (0x1F76, [0x1FDA]); (0x1F77, [0x1FDB]);
    (0x1F78, [0x1FF8]); (0x1F79, [0x1FF9]); (0x1F7A, [0x1FEA]);
    (0x1F7B, [0x1FEB]); (0x1F7C, [0x1FFA]); (0x1F7D, [0x1FFB]);
    (0x1F80, [0x1F08; 0x399]); (0x1F81, [0x1F09; 0x399]);
    (0x1F82, [0x1F0A; 0x399]); (0x1F83, [0x1F0B; 0x399]);
    (0x1F84, [0x1F0C; 0x399]); (0x1F85, [0x1F0D; 0x399]);
    (0x1F86, [0x1F0E; 0x399]); (0x1F87, [0x1F0F; 0x399]);
    (0x1F88, [0x1F08; 0x399]); (0x1F89, [0x1F09; 0x399]);
    (0x1F8A, [0x1F0A; 0x399]); (0x1F8B, [0x1F0B; 0x399]);
    (0x1F8C, [0x1F0C; 0x399]); (0x1F8D, [0x1F0D; 0x399]);
    (0x1F8E, [0x1F0E; 0x399]); (0x1F8F, [0x1F0F; 0x399]);
    (0x1F90, [0x1F28; 0x399]); (0x1F91, [0x1F29; 0x399]);
    (0x1F92, [0x1F2A; 0x399]); (0x1F93, [0x1F2B; 0x399]);
    (0x1F94, [0x1F2C; 0x399]); (0x1F95, [0x1F2D; 0x399]);
    (0x1F96, [0x1F2E; 0x399]); (0x1F97, [0x1F2F; 0x399]);
    (0x1F98, [0x1F28; 0x399]); (0x1F99, [0x1F29; 0x399]);
    (0x1F9A, [0x1F2A; 0x399]); (0x1F9B, [0x1F2B; 0x399]);
    (0x1F9C, [0x1F2C; 0x399]); (0x1F9D, [0x1F2D; 0x399]);
    (0x1F9E, [0x1F2E; 0x399]); (0x1F9F, [0x1F2F; 0x399]);
    (0x1FA0, [0x1F68; 0x399]); (0x1FA1, [0x1F69; 0x399]);
    (0x1FA2, [0x1F6A; 0x399]); (0x1FA3, [0x1F6B; 0x399]);
    (0x1FA4, [0x1F6C; 0x399]); (0x1FA5, [0x1F6D; 0x399]);
    (0x1FA6, [0x1F6E; 0x399]); (0x1FA7, [0x1F6F; 0x399]);
    (0x1FA8, [0x1F68; 0x399]); (0x1FA9, [0x1F69; 0x399]);
    (0x1FAA, [0x1F6A; 0x399]); (0x1FAB, [0x1F6B; 0x399]);
    (0x1FAC, [0x1F6C; 0x399]); (0x1FAD, [0x1F6D; 0x399]);
    (0x1FAE, [0x1F6E; 0x399]); (0x1FAF, [0x1F6F; 0x399]); (0x1FB0, [0x1FB8]);
    (0x1FB1, [0x1FB9]); (0x1FB2, [0x1FBA; 0x399]); (0x1FB3, [0x391; 0x399]);
    (0x1FB4, [0x386; 0x399]); (0x1FB6, [0x391; 0x342]);
    (0x1FB7, [0x391; 0x342; 0x399]); (0x1FBC, [0x391; 0x399]);
    (0x1FBE, [0x399]); (0x1FC2, [0x1FCA; 0x399]); (0x1FC3, [0x397; 0x399]);
    (0x1FC4, [0x389; 0x399]); (0x1FC6, [0x397; 0x342]);
    (0x1FC7, [0x397; 0x342; 0x399]); (0x1FCC, [0x397; 0x399]);
    (0x1FD0, [0x1FD8]); (0x1FD1, [0x1FD9]); (0x1FD2, [0x399; 0x308; 0x300]);
    (0x1FD3, [0x399; 0x308; 0x301]); (0x1FD6, [0x399; 0x342]);
    (0x1FD7, [0x399; 0x308; 0x342]); (0x1FE0, [0x1FE8]); (0x1FE1, [0x1FE9]);
    (0x1FE2, [0x3A5; 0x308; 0x300]); (0x1FE3, [0x3A5; 0x308; 0x301]);
    (0x1FE4, [0x3A1; 0x313]); (0x1FE5, [0x1FEC]); (0x1FE6, [0x3A5; 0x342]);
    (0x1FE7, [0x3A5; 0x308; 0x342]); (0x1FF2, [0x1FFA; 0x399]);
    (0x1FF3, [0x3A9; 0x399]); (0x1FF4, [0x38F; 0x399]);
    (0x1FF6, [0x3A9; 0x342]); (0x1FF7, [0x3A9; 0x342; 0x399]);
    (0x1FFC, [0x3A9; 0x399]); (0x214E, [0x2132]); (0x2170, [0x2160]);
    (0x2171, [0x2161]); (0x2172, [0x2162]); (0x2173, [0x2163]);
    (0x2174, [0x2164]); (0x2175, [0x2165]); (0x2176, [0x2166]);
    (0x2177, [0x2167]); (0x2178, [0x2168]); (0x2179, [0x2169]);
    (0x217A, [0x216A]); (0x217B, [0x216B]); (0x217C, [0x216C]);
    (0x217D, [0x216D]); (0x217E, [0x216E]); (0x217F, [0x216F]);
    (0x2184, [0x2183]); (0x24D0, [0x24B6]); (0x24D1, [0x24B7]);
    (0x24D2, [0x24B8]); (0x24D3, [0x24B9]); (0x24D4, [0x24BA]);
    (0x24D5, [0x24BB]); (0x24D6, [0x24BC]); (0x24D7, [0x24BD]);
    (0x24D8, [0x24BE]); (0x24D9, [0x24BF]); (0x24DA, [0x24C0]);
    (0x24DB, [0x24C1]); (0x24DC, [0x24C2]); (0x24DD, [0x24C3]);
    (0x24DE, [0x24C4]); (0x24DF, [0x24C5]); (0x24E0, [0x24C6]);
    (0x24E1, [0x24C7]); (0x24E2, [0x24C8]); (0x24E3, [0x24C9]);
    (0x24E4, [0x24CA]); (0x24E5, [0x24CB]); (0x24E6, [0x24CC]);
    (0x24E7, [0x24CD]); (0x24E8, [0x24CE]); (0x24E9, [0x24CF]);
    (0x2C30, [0x2C00]); (0x2C31, [0x2C01]); (0x2C32, [0x2C02]);
    (0x2C33, [0x2C03]); (0x2C34, [0x2C04]); (0x2C35, [0x2C05]);
    (0x2C36, [0x2C06]); (0x2C37, [0x2C07]); (0x2C38, [0x2C08]);
    (0x2C39, [0x2C09]); (0x2C3A, [0x2C0A]); (0x2C3B, [0x2C0B]);
    (0x2C3C, [0x2C0C]); (0x2C3D, [0x2C0D]); (0x2C3E, [0x2C0E]);
    (0x2C3F, [0x2C0F]); (0x2C40, [0x2C10]); (0x2C41, [0x2C11]);
    (0x2C42, [0x2C12]); (0x2C43, [0x2C13]); (0x2C44, [0x2C14]);
    (0x2C45, [0x2C15]); (0x2C46, [0x2C16]); (0x2C47, [0x2C17]);
    (0x2C48, [0x2C18]); (0x2C49, [0x2C19]); (0x2C4A, [0x2C1A]);
    (0x2C4B, [0x2C1B]); (0x2C4C, [0x2C1C]); (0x2C4D, [0x2C1D]);
    (0x2C4E, [0x2C1E]); (0x2C4F, [0x2C1F]); (0x2C50, [0x2C20]);
    (0x2C51, [0x2C21]); (0x2C52, [0x2C22]); (0x2C53, [0x2C23]);
    (0x2C54, [0x2C24]); (0x2C55, [0x2C25]); (0x2C56, [0x2C26]);
    (0x2C57, [0x2C27]); (0x2C58, [0x2C28]); (0x2C59, [0x2C29]);
    (0x2C5A, [0x2C2A]); (0x2C5B, [0x2C2B]); (0x2C5C, [0x2C2C]);
    (0x2C5D, [0x2C2D]); (0x2C5E, [0x2C2E]); (0x2C5F, [0x2C2F]);
    (0x2C61, [0x2C60]); (0x2C65, [0x23A]); (0x2C66, [0x23E]);
    (0x2C68, [0x2C67]); (0x2C6A, [0x2C69]); (0x2C6C, [0x2C6B]);
    (0x2C73, [0x2C72]); (0x2C76, [0x2C75]); (0x2C81, [0x2C80]);
    (0x2C83, [0x2C82]); (0x2C85, [0x2C84]); (0x2C87, [0x2C86]);
    (0x2C89, [0x2C88]); (0x2C8B, [0x2C8A]); (0x2C8D, [0x2C8C]);
    (0x2C8F, [0x2C8E]); (0x2C91, [0x2C90]); (0x2C93, [0x2C92]);
    (0x2C95, [0x2C94]); (0x2C97, [0x2C96]); (0x2C99, [0x2C98]);
    (0x2C9B, [0x2C9A]); (0x2C9D, [0x2C9C]); (0x2C9F, [0x2C9E]);
    (0x2CA1, [0x2CA0]); (0x2CA3, [0x2CA2]); (0x2CA5, [0x2CA4]);
    (0x2CA7, [0x2CA6]); (0x2CA9, [0x2CA8]); (0x2CAB, [0x2CAA]);
    (0x2CAD, [0x2CAC]); (0x2CAF, [0x2CAE]); (0x2CB1, [0x2CB0]);
    (0x2CB3, [0x2CB2]); (0x2CB5, [0x2CB4]); (0x2CB7, [0x2CB6]);
    (0x2CB9, [0x2CB8]); (0x2CBB, [0x2CBA]); (0x2CBD, [0x2CBC]);
    (0x2CBF, [0x2CBE]); (0x2CC1, [0x2CC0]); (0x2CC3, [0x2CC2]);
    (0x2CC5, [0x2CC4]); (0x2CC7, [0x2CC6]); (0x2CC9, [0x2CC8]);
    (0x2CCB, [0x2CCA]); (0x2CCD, [0x2CCC]); (0x2CCF, [0x2CCE]);
    (0x2CD1, [0x2CD0]); (0x2CD3, [0x2CD2]); (0x2CD5, [0x2CD4]);
    (0x2CD7, [0x2CD6]); (0x2CD9, [0x2CD8]); (0x2CDB, [0x2CDA]);
    (0x2CDD, [0x2CDC]); (0x2CDF, [0x2CDE]); (0x2CE1, [0x2CE0]);
    (0x2CE3, [0x2CE2]); (0x2CEC, [0x2CEB]); (0x2CEE, [0x2CED]);
    (0x2CF3, [0x2CF2]); (0x2D00, [0x10A0]); (0x2D01, [0x10A1]);
    (0x2D02, [0x10A2]); (0x2D03, [0x10A3]); (0x2D04, [0x10A4]);
    (0x2D05, [0x10A5]); (0x2D06, [0x10A6]); (0x2D07, [0x10A7]);
    (0x2D08, [0x10A8]); (0x2D09, [0x10A9]); (0x2D0A, [0x10AA]);
    (0x2D0B, [0x10AB]); (0x2D0C, [0x10AC]); (0x2D0D, [0x10AD]);
    (0x2D0E, [0x10AE]); (0x2D0F, [0x10AF]); (0x2D10, [0x10B0]);
    (0x2D11, [0x10B1]); (0x2D12, [0x10B2]); (0x2D13, [0x10B3]);
    (0x2D14, [0x10B4]); (0x2D15, [0x10B5]); (0x2D16, [0x10B6]);
    (0x2D17, [0x10B7]); (0x2D18, [0x10B8]); (0x2D19, [0x10B9]);
    (0x2D1A, [0x10BA]); (0x2D1B, [0x10BB]); (0x2D1C, [0x10BC]);
    (0x2D1D, [0x10BD]); (0x2D1E, [0x10BE]); (0x2D1F, [0x10BF]);
    (0x2D20, [0x10C0]); (0x2D21, [0x10C1]); (0x2D22, [0x10C2]);
    (0x2D23, [0x10C3]); (0x2D24, [0x10C4]); (0x2D25, [0x10C5]);
    (0x2D27, [0x10C7]); (0x2D2D, [0x10CD]); (0xA641, [0xA640]);
    (0xA643, [0xA642]); (0xA645, [0xA644]); (0xA647, [0xA646]);
    (0xA649, [0xA648]); (0xA64B, [0xA64A]); (0xA64D, [0xA64C]);
    (0xA64F, [0xA64E]); (0xA651, [0xA650]); (0xA653, [0xA652]);
    (0xA655, [0xA654]); (0xA657, [0xA656]); (0xA659, [0xA658]);
    (0xA65B, [0xA65A]); (0xA65D, [0xA65C]); (0xA65F, [0xA65E]);
    (0xA661, [0xA660]); (0xA663, [0xA662]); (0xA665, [0xA664]);
    (0xA667, [0xA666]); (0xA669, [0xA668]); (0xA66B, [0xA66A]);
    (0xA66D, [0xA66C]); (0xA681, [0xA680]); (0xA683, [0xA682]);
    (0xA685, [0xA684]); (0xA687, [0xA686]); (0xA689, [0xA688]);
    (0xA68B, [0xA68A]); (0xA68D, [0xA68C]); (0xA68F, [0xA68E]);
    (0xA691, [0xA690]); (0xA693, [0xA692]); (0xA695, [0xA694]);
    (0xA697, [0xA696]); (0xA699, [0xA698]); (0xA69B, [0xA69A]);
    (0xA723, [0xA722]); (0xA725, [0xA724]); (0xA727, [0xA726]);
    (0xA729, [0xA728]); (0xA72B, [0xA72A]); (0xA72D, [0xA72C]);
    (0xA72F, [0xA72E]); (0xA733, [0xA732]); (0xA735, [0xA734]);
    (0xA737, [0xA736]); (0xA739, [0xA738]); (0xA73B, [0xA73A]);
    (0xA73D, [0xA73C]); (0xA73F, [0xA73E]); (0xA741, [0xA740]);
    (0xA743, [0xA742]); (0xA745, [0xA744]); (0xA747, [0xA746]);
    (0xA749, [0xA748]); (0xA74B, [0xA74A]); (0xA74D, [0xA74C]);
    (0xA74F, [0xA74E]); (0xA751, [0xA750]); (0xA753, [0xA752]);
    (0xA755, [0xA754]); (0xA757, [0xA756]); (0xA759, [0xA758]);
    (0xA75B, [0xA75A]); (0xA75D, [0xA75C]); (0xA75F, [0xA75E]);
    (0xA761, [0xA760]); (0xA763, [0xA762]); (0xA765, [0xA764]);
    (0xA767, [0xA766]); (0xA769, [0xA768]); (0xA76B, [0xA76A]);
    (0xA76D, [0xA76C]); (0xA76F, [0xA76E]); (0xA77A, [0xA779]);
    (0xA77C, [0xA77B]); (0xA77F, [0xA77E]); (0xA781, [0xA780]);
    (0xA783, [0xA782]); (0xA785, [0xA784]); (0xA787, [0xA786]);
    (0xA78C, [0xA78B]); (0xA791, [0xA790]); (0xA793, [0xA792]);
    (0xA794, [0xA7C4]); (0xA797, [0xA796]); (0xA799, [0xA798]);
    (0xA79B, [0xA79A]); (0xA79D, [0xA79C]); (0xA79F, [0xA79E]);
    (0xA7A1, [0xA7A0]); (0xA7A3, [0xA7A2]); (0xA7A5, [0xA7A4]);
    (0xA7A7, [0xA7A6]); (0xA7A9, [0xA7A8]); (0xA7B5, [0xA7B4]);
    (0xA7B7, [0xA7B6]); (0xA7B9, [0xA7B8]); (0xA7BB, [0xA7BA]);
    (0xA7BD, [0xA7BC]); (0xA7BF, [0xA7BE]); (0xA7C1, [0xA7C0]);
    (0xA7C3, [0xA7C2]); (0xA7C8, [0xA7C7]); (0xA7CA, [0xA7C9]);
    (0xA7D1, [0xA7D0]); (0xA7D7, [0xA7D6]); (0xA7D9, [0xA7D8]);
    (0xA7F6, [0xA7F5]); (0xAB53, [0xA7B3]); (0xAB70, [0x13A0]);
    (0xAB71, [0x13A1]); (0xAB72, [0x13A2]); (0xAB73, [0x13A3]);
    (0xAB74, [0x13A4]); (0xAB75, [0x13A5]); (0xAB76, [0x13A6]);
    (0xAB77, [0x13A7]); (0xAB78, [0x13A8]); (0xAB79, [0x13A9]);
    (0xAB7A, [0x13AA]); (0xAB7B, [0x13AB]); (0xAB7C, [0x13AC]);
    (0xAB7D, [0x13AD]); (0xAB7E, [0x13AE]); (0xAB7F, [0x13AF]);
    (0xAB80, [0x13B0]); (0xAB81, [0x13B1]); (0xAB82, [0x13B2]);
    (0xAB83, [0x13B3]); (0xAB84, [0x13B4]); (0xAB85, [0x13B5]);
    (0xAB86, [0x13B6]); (0xAB87, [0x13B7]); (0xAB88, [0x13B8]);
    (0xAB89, [0x13B9]); (0xAB8A, [0x13BA]); (0xAB8B, [0x13BB]);
    (0xAB8C, [0x13BC]); (0xAB8D, [0x13BD]); (0xAB8E, [0x13BE]);
    (0xAB8F, [0x13BF]); (0xAB90, [0x13C0]); (0xAB91, [0x13C1]);
    (0xAB92, [0x13C2]); (0xAB93, [0x13C3]); (0xAB94, [0x13C4]);
    (0xAB95, [0x13C5]); (0xAB96, [0x13C6]); (0xAB97, [0x13C7]);
    (0xAB98, [0x13C8]); (0xAB99, [0x13C9]); (0xAB9A, [0x13CA]);
    (0xAB9B, [0x13CB]); (0xAB9C, [0x13CC]); (0xAB9D, [0x13CD]);
    (0xAB9E, [0x13CE]); (0xAB9F, [0x13CF]); (0xABA0, [0x13D0]);
    (0xABA1, [0x13D1]); (0xABA2, [0x13D2]); (0xABA3, [0x13D3]);
    (0xABA4, [0x13D4]); (0xABA5, [0x13D5]); (0xABA6, [0x13D6]);
    (0xABA7, [0x13D7]); (0xABA8, [0x13D8]); (0xABA9, [0x13D9]);
    (0xABAA, [0x13DA]); (0xABAB, [0x13DB]); (0xABAC, [0x13DC]);
    (0xABAD, [0x13DD]); (0xABAE, [0x13DE]); (0xABAF, [0x13DF]);
    (0xABB0, [0x13E0]); (0xABB1, [0x13E1]); (0xABB2, [0x13E2]);
    (0xABB3, [0x13E3]); (0xABB4, [0x13E4]); (0xABB5, [0x13E5]);
    (0xABB6, [0x13E6]); (0xABB7, [0x13E7]); (0xABB8, [0x13E8]);
    (0xABB9, [0x13E9]); (0xABBA, [0x13EA]); (0xABBB, [0x13EB]);
    (0xABBC, [0x13EC]); (0xABBD, [0x13ED]); (0xABBE, [0x13EE]);
    (0xABBF, [0x13EF]); (0xFB00, [0x46; 0x46]); (0xFB01, [0x46; 0x49]);
    (0xFB02, [0x46; 0x4C]); (0xFB03, [0x46; 0x46; 0x49]);
    (0xFB04, [0x46; 0x46; 0x4C]); (0xFB05, [0x53; 0x54]);
    (0xFB06, [0x53; 0x54]); (0xFB13, [0x544; 0x546]);
    (0xFB14, [0x544; 0x535]); (0xFB15, [0x544; 0x53B]);
    (0xFB16, [0x54E; 0x546]); (0xFB17, [0x544; 0x53D]); (0xFF41, [0xFF21]);
    (0xFF42, [0xFF22]); (0xFF43, [0xFF23]); (0xFF44, [0xFF24]);
    (0xFF45, [0xFF25]); (0xFF46, [0xFF26]); (0xFF47, [0xFF27]);
    (0xFF48, [0xFF28]); (0xFF49, [0xFF29]); (0xFF4A, [0xFF2A]);
    (0xFF4B, [0xFF2B]); (0xFF4C, [0xFF2C]); (0xFF4D, [0xFF2D]);
    (0xFF4E, [0xFF2E]); (0xFF4F, [0xFF2F]); (0xFF50, [0xFF30]);
    (0xFF51, [0xFF31]); (0xFF52, [0xFF32]); (0xFF53, [0xFF33]);
    (0xFF54, [0xFF34]); (0xFF55, [0xFF35]); (0xFF56, [0xFF36]);
    (0xFF57, [0xFF37]); (0xFF58, [0xFF38]); (0xFF59, [0xFF39]);
    (0xFF5A, [0xFF3A]); (0x10428, [0x10400]); (0x10429, [0x10401]);
    (0x1042A, [0x10402]); (0x1042B, [0x10403]); (0x1042C, [0x10404]);
    (0x1042D, [0x10405]); (0x1042E, [0x10406]); (0x1042F, [0x10407]);
    (0x10430, [0x10408]); (0x10431, [0x10409]); (0x10432, [0x1040A]);
    (0x10433, [0x1040B]); (0x10434, [0x1040C]); (0x10435, [0x1040D]);
    (0x10436, [0x1040E]); (0x10437, [0x1040F]); (0x10438, [0x10410]);
    (0x10439, [0x10411]); (0x1043A, [0x10412]); (0x1043B, [0x10413]);
    (0x1043C, [0x10414]); (0x1043D, [0x10415]); (0x1043E, [0x10416]);
    (0x1043F, [0x10417]); (0x10440, [0x10418]); (0x10441, [0x10419]);
    (0x10442, [0x1041A]); (0x10443, [0x1041B]); (0x10444, [0x1041C]);
    (0x10445, [0x1041D]); (0x10446, [0x1041E]); (0x10447, [0x1041F]);
    (0x10448, [0x10420]); (0x10449, [0x10421]); (0x1044A, [0x10422]);
    (0x1044B, [0x10423]); (0x1044C, [0x10424]); (0x1044D, [0x10425]);
    (0x1044E, [0x10426]); (0x1044F, [0x10427]); (0x104D8, [0x104B0]);
    (0x104D9, [0x104B1]); (0x104DA, [0x104B2]); (0x104DB, [0x104B3]);
    (0x104DC, [0x104B4]); (0x104DD, [0x104B5]); (0x104DE, [0x104B6]);
    (0x104DF, [0x104B7]); (0x104E0, [0x104B8]); (0x104E1, [0x104B9]);
    (0x104E2, [0x104BA]); (0x104E3, [0x104BB]); (0x104E4, [0x104BC]);
    (0x104E5, [0x104BD]); (0x104E6, [0x104BE]); (0x104E7, [0x104BF]);
    (0x104E8, [0x104C0]); (0x104E9, [0x104C1]); (0x104EA, [0x104C2]);
    (0x104EB, [0x104C3]); (0x104EC, [0x104C4]); (0x104ED, [0x104C5]);
    (0x104EE, [0x104C6]); (0x104EF, [0x104C7]); (0x104F0, [0x104C8]);
    (0x104F1, [0x104C9]); (0x104F2, [0x104CA]); (0x104F3, [0x104CB]);
    (0x104F4, [0x104CC]); (0x104F5, [0x104CD]); (0x104F6, [0x104CE]);
    (0x104F7, [0x104CF]); (0x104F8, [0x104D0]); (0x104F9, [0x104D1]);
    (0x104FA, [0x104D2]); (0x104FB, [0x104D3]); (0x10597, [0x10570]);
    (0x10598, [0x10571]); (0x10599, [0x10572]); (0x1059A, [0x10573]);
    (0x1059B, [0x10574]); (0x1059C, [0x10575]); (0x1059D, [0x10576]);
    (0x1059E, [0x10577]); (0x1059F, [0x10578]); (0x105A0, [0x10579]);
    (0x105A1, [0x1057A]); (0x105A3, [0x1057C]); (0x105A4, [0x1057D]);
    (0x105A5, [0x1057E]); (0x105A6, [0x1057F]); (0x105A7, [0x10580]);
    (0x105A8, [0x10581]); (0x105A9, [0x10582]); (0x105AA, [0x10583]);
    (0x105AB, [0x10584]); (0x105AC, [0x10585]); (0x105AD, [0x10586]);
    (0x105AE, [0x10587]); (0x105AF, [0x10588]); (0x105B0, [0x10589]);
    (0x105B1, [0x1058A]); (0x105B3, [0x1058C]); (0x105B4, [0x1058D]);
    (0x105B5, [0x1058E]); (0x105B6, [0x1058F]); (0x105B7, [0x10590]);
    (0x105B8, [0x10591]); (0x105B9, [0x10592]); (0x105BB, [0x10594]);
    (0x105BC, [0x10595]); (0x10CC0, [0x10C80]); (0x10CC1, [0x10C81]);
    (0x10CC2, [0x10C82]); (0x10CC3, [0x10C83]); (0x10CC4, [0x10C84]);
    (0x10CC5, [0x10C85]); (0x10CC6, [0x10C86]); (0x10CC7, [0x10C87]);
    (0x10CC8, [0x10C88]); (0x10CC9, [0x10C89]); (0x10CCA, [0x10C8A]);
    (0x10CCB, [0x10C8B]); (0x10CCC, [0x10C8C]); (0x10CCD, [0x10C8D]);
    (0x10CCE, [0x10C8E]); (0x10CCF, [0x10C8F]); (0x10CD0, [0x10C90]);
    (0x10CD1, [0x10C91]); (0x10CD2, [0x10C92]); (0x10CD3, [0x10C93]);
    (0x10CD4, [0x10C94]); (0x10CD5, [0x10C95]); (0x10CD6, [0x10C96]);
    (0x10CD7, [0x10C97]); (0x10CD8, [0x10C98]); (0x10CD9, [0x10C99]);
    (0x10CDA, [0x10C9A]); (0x10CDB, [0x10C9B]); (0x10CDC, [0x10C9C]);
    (0x10CDD, [0x10C9D]); (0x10CDE, [0x10C9E]); (0x10CDF, [0x10C9F]);
    (0x10CE0, [0x10CA0]); (0x10CE1, [0x10CA1]); (0x10CE2, [0x10CA2]);
    (0x10CE3, [0x10CA3]); (0x10CE4, [0x10CA4]); (0x10CE5, [0x10CA5]);
    (0x10CE6, [0x10CA6]); (0x10CE7, [0x10CA7]); (0x10CE8, [0x10CA8]);
    (0x10CE9, [0x10CA9]); (0x10CEA, [0x10CAA]); (0x10CEB, [0x10CAB]);
    (0x10CEC, [0x10CAC]); (0x10CED, [0x10CAD]); (0x10CEE, [0x10CAE]);
    (0x10CEF, [0x10CAF]); (0x10CF0, [0x10CB0]); (0x10CF1, [0x10CB1]);
    (0x10CF2, [0x10CB2]); (0x118C0, [0x118A0]); (0x118C1, [0x118A1]);
    (0x118C2, [0x118A2]); (0x118C3, [0x118A3]); (0x118C4, [0x118A4]);
    (0x118C5, [0x118A5]); (0x118C6, [0x118A6]); (0x118C7, [0x118A7]);
    (0x118C8, [0x118A8]); (0x118C9, [0x118A9]); (0x118CA, [0x118AA]);
    (0x118CB, [0x118AB]); (0x118CC, [0x118AC]); (0x118CD, [0x118AD]);
    (0x118CE, [0x118AE]); (0x118CF, [0x118AF]); (0x118D0, [0x118B0]);
    (0x118D1, [0x118B1]); (0x118D2, [0x118B2]); (0x118D3, [0x118B3]);
    (0x118D4, [0x118B4]); (0x118D5, [0x118B5]); (0x118D6, [0x118B6]);
    (0x118D7, [0x118B7]); (0x118D8, [0x118B8]); (0x118D9, [0x118B9]);
    (0x118DA, [0x118BA]); (0x118DB, [0x118BB]); (0x118DC, [0x118BC]);
    (0x118DD, [0x118BD]); (0x118DE, [0x118BE]); (0x118DF, [0x118BF]);
    (0x16E60, [0x16E40]); (0x16E61, [0x16E41]); (0x16E62, [0x16E42]);
    (0x16E63, [0x16E43]); (0x16E64, [0x16E44]); (0x16E65, [0x16E45]);
    (0x16E66, [0x16E46]); (0x16E67, [0x16E47]); (0x16E68, [0x16E48]);
    (0x16E69, [0x16E49]); (0x16E6A, [0x16E4A]); (0x16E6B, [0x16E4B]);
    (0x16E6C, [0x16E4C]); (0x16E6D, [0x16E4D]); (0x16E6E, [0x16E4E]);
    (0x16E6F, [0x16E4F]); (0x16E70, [0x16E50]); (0x16E71, [0x16E51]);
    (0x16E72, [0x16E52]); (0x16E73, [0x16E53]); (0x16E74, [0x16E54]);
    (0x16E75, [0x16E55]); (0x16E76, [0x16E56]); (0x16E77, [0x16E57]);
    (0x16E78, [0x16E58]); (0x16E79, [0x16E59]); (0x16E7A, [0x16E5A]);
    (0x16E7B, [0x16E5B]); (0x16E7C, [0x16E5C]); (0x16E7D, [0x16E5D]);
    (0x16E7E, [0x16E5E]); (0x16E7F, [0x16E5F]); (0x1E922, [0x1E900]);
    (0x1E923, [0x1E901]); (0x1E924, [0x1E902]); (0x1E925, [0x1E903]);
    (0x1E926, [0x1E904]); (0x1E927, [0x1E905]); (0x1E928, [0x1E906]);
    (0x1E929, [0x1E907]); (0x1E92A, [0x1E908]); (0x1E92B, [0x1E909]);
    (0x1E92C, [0x1E90A]); (0x1E92D, [0x1E90B]); (0x1E92E, [0x1E90C]);
    (0x1E92F, [0x1E90D]); (0x1E930, [0x1E90E]); (0x1E931, [0x1E90F]);
    (0x1E932, [0x1E910]); (0x1E933, [0x1E911]); (0x1E934, [0x1E912]);
    (0x1E935, [0x1E913]); (0x1E936, [0x1E914]); (0x1E937, [0x1E915]);
    (0x1E938, [0x1E916]); (0x1E939, [0x1E917]); (0x1E93A, [0x1E918]);
    (0x1E93B, [0x1E919]); (0x1E93C, [0x1E91A]); (0x1E93D, [0x1E91B]);
    (0x1E93E, [0x1E91C]); (0x1E93F, [0x1E91D]); (0x1E940, [0x1E91E]);
    (0x1E941, [0x1E91F]); (0x1E942, [0x1E920]); (0x1E943, [0x1E921])]
  )%N.

(** The same, as UTF-8 text. *)
Definition uppercase_table : list (string * string) :=
  Eval vm_compute in
    map (fun m => (utf8 (fst m), utf8_text (snd m))) case_mappings.

Fixpoint lookup (key : string) (table : list (string * string)) : option string :=
  match table with
  | [] => None
  | (k, w) :: rest => if String.eqb k key then Some w else lookup key rest
  end.

(** What the character with the given UTF-8 bytes becomes, if it changes. *)
Definition uppercase_of (key : string) : option string :=
  lookup key uppercase_table.

(** The number of bytes of the UTF-8 sequence a byte starts; 0 for a byte
    that starts none. *)
Definition width (b : ascii) : nat :=
  let n := N_of_ascii b in
  if (n <? 0x80)%N then 1
  else if (n <? 0xC0)%N then 0
  else if (n <? 0xE0)%N then 2
  else if (n <? 0xF0)%N then 3
  else if (n <? 0xF8)%N then 4
  else 0.

(** [String.prototype.toUpperCase], on UTF-8 text: every character is
    replaced by its upper-case mapping, which may be longer ("ß" becomes
    "SS"); a byte that is not part of a character with a mapping is kept. *)
Function toUpperCase (s : string) {struct s} : string :=
  match s with
  | EmptyString => EmptyString
  | String b1 r1 =>
      match width b1 with
      | 1 => String (upper_char b1) (toUpperCase r1)
      | 2 =>
          match r1 with
          | String b2 r2 =>
              match uppercase_of (String b1 (String b2 "")) with
              | Some w => w ++ toUpperCase r2
              | None => String b1 (toUpperCase r1)
              end
          | _ => String b1 (toUpperCase r1)
          end
      | 3 =>
          match r1 with
          | String b2 (String b3 r3) =>
              match uppercase_of (String b1 (String b2 (String b3 ""))) with
              | Some w => w ++ toUpperCase r3
              | None => String b1 (toUpperCase r1)
              end
          | _ => String b1 (toUpperCase r1)
          end
      | 4 =>
          match r1 with
          | String b2 (String b3 (String b4 r4)) =>
              match uppercase_of
                      (String b1 (String b2 (String b3 (String b4 "")))) with
              | Some w => w ++ toUpperCase r4
              | None => String b1 (toUpperCase r1)
              end
          | _ => String b1 (toUpperCase r1)
          end
      | _ => String b1 (toUpperCase r1)
      end
  end.

Definition is_lower (c : ascii) : bool :=
  let n := N_of_ascii c in ((97 <=? n) && (n <=? 122))%N.

(** No letter a-z occurs in [s]. *)
Fixpoint no_lowercase (s : string) : bool :=
  match s with
  | EmptyString => true
  | String c rest => negb (is_lower c) && no_lowercase rest
  end.

(** A continuation byte of a UTF-8 sequence. *)
Definition is_cont (b : ascii) : bool :=
  let n := N_of_ascii b in ((0x80 <=? n) && (n <? 0xC0))%N.

(** The mapping of the character that starts with [b1] and goes on into
    [rest], if it has one. *)
Definition mapping_at (b1 : ascii) (rest : string) : option string :=
  match width b1 with
  | 2 =>
      match rest with
      | String b2 _ => uppercase_of (String b1 (String b2 ""))
      | _ => None
      end
  | 3 =>
      match rest with
      | String b2 (String b3 _) =>
          uppercase_of (String b1 (String b2 (String b3 "")))
      | _ => None
      end
  | 4 =>
      match rest with
      | String b2 (String b3 (String b4 _)) =>
          uppercase_of (String b1 (String b2 (String b3 (String b4 ""))))
      | _ => None
      end
  | _ => None
  end.

(** The key of a table entry is one whole character above U+007F. *)
Definition whole_character (k : string) : bool :=
  match k with
  | String b1 (String b2 "") => (width b1 =? 2)%nat && is_cont b2
  | String b1 (String b2 (String b3 "")) =>
      (width b1 =? 3)%nat && is_cont b2 && is_cont b3
  | String b1 (String b2 (String b3 (String b4 ""))) =>
      (width b1 =? 4)%nat && is_cont b2 && is_cont b3 && is_cont b4
  | _ => false
  end.

(** The text is a sequence of whole characters none of which upper-casing
    changes. *)
Function upper_text (w : string) {struct w} : bool :=
  match w with
  | EmptyString => true
  | String b1 r1 =>
      match width b1 with
      | 1 => negb (is_lower b1) && upper_text r1
      | 2 =>
          match r1 with
          | String b2 r2 =>
              match uppercase_of (String b1 (String b2 "")) with
              | Some _ => false
              | None => is_cont b2 && upper_text r2
              end
          | _ => false
          end
      | 3 =>
          match r1 with
          | String b2 (String b3 r3) =>
              match uppercase_of (String b1 (String b2 (String b3 ""))) with
              | Some _ => false
              | None => is_cont b2 && is_cont b3 && upper_text r3
              end
          | _ => false
          end
      | 4 =>
          match r1 with
          | String b2 (String b3 (String b4 r4)) =>
              match uppercase_of
                      (String b1 (String b2 (String b3 (String b4 "")))) with
              | Some _ => false
              | None => is_cont b2 && is_cont b3 && is_cont b4 && upper_text r4
              end
          | _ => false
          end
      | _ => false
      end
  end.

(** What is checked of every entry of the table. *)
Definition entry_ok (entry : string * string) : bool :=
  whole_character (fst entry) && upper_text (snd entry) &&
  negb (String.eqb (snd entry) "").

(** Every byte is an ASCII character. *)
Fixpoint ascii_text (s : string) : bool :=
  match s with
  | EmptyString => true
  | String b rest => (N_of_ascii b <? 0x80)%N && ascii_text rest
  end.

Fixpoint each_byte (f : ascii -> ascii) (s : string) : string :=
  match s with
  | EmptyString => EmptyString
  | String b rest => String (f b) (each_byte f rest)
  end.

(** Space, tab, line feed, vertical tab, form feed, carriage return. *)
Definition is_space (c : ascii) : bool :=
  let n := N_of_ascii c in ((n =? 32) || ((9 <=? n) && (n <=? 13)))%N.

(** The string is empty or holds white space only. *)
Fixpoint blank (s : string) : bool :=
  match s with
  | EmptyString => true
  | String c rest => is_space c && blank rest
  end.

End JS.
Import JS.

(* ===================================================================== *)
(** ** The component state and its effects *)
(* ===================================================================== *)

(** The four [useState] cells of [App]. *)
Record state : Type := mkState {
  ticker : string;
  stockData : jsval;
  loading : bool;
  error : jsval
}.

(** [useState('')], [useState(null)], [useState(false)], [useState(null)]. *)
Definition initial : state :=
  {| ticker := ""; stockData := JNull; loading := false; error := JNull |}.

(** The synchronous effects of the handlers. *)
Inductive effect : Type :=
| SetTicker (s : string)
| SetStockData (v : jsval)
| SetLoading (b : bool)
| SetError (v : jsval)
| ConsoleError (args : list jsval).

Definition apply (op : effect) (s : state) : state :=
  match op with
  | SetTicker t =>
      {| ticker := t; stockData := stockData s; loading := loading s; error := error s |}
  | SetStockData v =>
      {| ticker := ticker s; stockData := v; loading := loading s; error := error s |}
  | SetLoading b =>
      {| ticker := ticker s; stockData := stockData s; loading := b; error := error s |}
  | SetError v =>
      {| ticker := ticker s; stockData := stockData s; loading := loading s; error := v |}
  | ConsoleError _ => s
  end.

(** What [axios.get] resolves with; [handleSearch] reads [data] only. *)
Record response : Type := mkResponse {
  data : jsval;
  status : Z
}.

(** How the promise of a request settles. *)
Inductive settled : Type :=
| Fulfilled (r : response)
| Rejected (reason : jsval).

(* ===================================================================== *)
(** ** Asynchronous functions as effect trees *)
(* ===================================================================== *)

Inductive task (A : Type) : Type :=
| Return (a : A)
| Throw (e : jsval)
| Do (op : effect) (k : task A)
| Await (url : string) (k : settled -> task A).

Arguments Return {A} a.
Arguments Throw {A} e.
Arguments Do {A} op k.
Arguments Await {A} url k.

Fixpoint task_bind {A B : Type} (t : task A) (f : A -> task B) : task B :=
  match t with
  | Return a => f a
  | Throw e => Throw e
  | Do op k => Do op (task_bind k f)
  | Await url k => Await url (fun o => task_bind (k o) f)
  end.

(** [try { t } catch (err) { h err }] *)
Fixpoint try_catch {A : Type} (t : task A) (h : jsval -> task A) : task A :=
  match t with
  | Return a => Return a
  | Throw e => h e
  | Do op k => Do op (try_catch k h)
  | Await url k => Await url (fun o => try_catch (k o) h)
  end.

(** [try { t } finally { f }]: [f] runs when [t] completes, however it
    completes, and the completion of [t] is kept unless [f] throws. *)
Fixpoint try_finally {A : Type} (t : task A) (f : task unit) : task A :=
  match t with
  | Return a => task_bind f (fun _ => Return a)
  | Throw e => task_bind f (fun _ => Throw e)
  | Do op k => Do op (try_finally k f)
  | Await url k => Await url (fun o => try_finally (k o) f)
  end.

#[export] Instance Monad_task : Monad task :=
  {| ret := @Return; bind := @task_bind |}.

#[export] Instance MonadExc_task : MonadExc jsval task :=
  {| raise := @Throw; catch := @try_catch |}.

(** [await axios.get(url)]: the response, or the rejection thrown here. *)
Definition axios_get (url : string) : task response :=
  Await url (fun o =>
    match o with
    | Fulfilled r => Return r
    | Rejected reason => Throw reason
    end).

(** A property read that may throw. *)
Definition lift (r : jsval + jsval) : task jsval :=
  match r with
  | inl e => raise e
  | inr v => ret v
  end.

Definition setTicker (s : string) : task unit := Do (SetTicker s) (Return tt).
Definition setStockData (v : jsval) : task unit := Do (SetStockData v) (Return tt).
Definition setLoading (b : bool) : task unit := Do (SetLoading b) (Return tt).
Definition setError (v : jsval) : task unit := Do (SetError v) (Return tt).
Definition console_error (args : list jsval) : task unit :=
  Do (ConsoleError args) (Return tt).

(** *** Running a task *)

Inductive event : Type :=
| Did (op : effect)
| Requested (url : string).

Inductive completion (A : Type) : Type :=
| Normal (a : A)
| Thrown (e : jsval).

Arguments Normal {A} a.
Arguments Thrown {A} e.

(** The outcome of a run: the state it leaves, what it did, in order, and
    how it completed. *)
Record run (A : Type) : Type := mkRun {
  final : state;
  trace : list event;
  result : completion A
}.

Arguments mkRun {A} final trace result.
Arguments final {A} r.
Arguments trace {A} r.
Arguments result {A} r.

Definition after {A : Type} (ev : event) (r : run A) : run A :=
  {| final := final r; trace := ev :: trace r; result := result r |}.

(** Runs [t] to completion from [s]; [net url] is how the request to [url]
    settles. *)
Fixpoint exec {A : Type} (net : string -> settled) (t : task A) (s : state) : run A :=
  match t with
  | Return a => {| final := s; trace := []; result := Normal a |}
  | Throw e => {| final := s; trace := []; result := Thrown e |}
  | Do op k => after (Did op) (exec net k (apply op s))
  | Await url k => after (Requested url) (exec net (k (net url)) s)
  end.

(** Where a task stands once its synchronous prefix has run: completed, or
    suspended at its first [await]. *)
Inductive progress (A : Type) : Type :=
| Completed (s : state) (c : completion A)
| Pending (s : state) (url : string) (k : settled -> task A).

Arguments Completed {A} s c.
Arguments Pending {A} s url k.

Fixpoint start {A : Type} (t : task A) (s : state) : progress A :=
  match t with
  | Return a => Completed s (Normal a)
  | Throw e => Completed s (Thrown e)
  | Do op k => start k (apply op s)
  | Await url k => Pending s url k
  end.

(** The state in which a task yields or finishes. *)
Definition transient {A : Type} (p : progress A) : state :=
  match p with
  | Completed s _ => s
  | Pending s _ _ => s
  end.

(** The request a suspended task waits for. *)
Definition awaiting {A : Type} (p : progress A) : option string :=
  match p with
  | Completed _ _ => None
  | Pending _ url _ => Some url
  end.

(** *** Reading a trace *)

Fixpoint requests (tr : list event) : list string :=
  match tr with
  | [] => []
  | Requested url :: rest => url :: requests rest
  | Did _ :: rest => requests rest
  end.

Fixpoint loading_writes (tr : list event) : list bool :=
  match tr with
  | [] => []
  | Did (SetLoading b) :: rest => b :: loading_writes rest
  | _ :: rest => loading_writes rest
  end.

Fixpoint ticker_writes (tr : list event) : list string :=
  match tr with
  | [] => []
  | Did (SetTicker t) :: rest => t :: ticker_writes rest
  | _ :: rest => ticker_writes rest
  end.

Fixpoint stockData_writes (tr : list event) : list jsval :=
  match tr with
  | [] => []
  | Did (SetStockData v) :: rest => v :: stockData_writes rest
  | _ :: rest => stockData_writes rest
  end.

Fixpoint console (tr : list event) : list (list jsval) :=
  match tr with
  | [] => []
  | Did (ConsoleError args) :: rest => args :: console rest
  | _ :: rest => console rest
  end.

Definition is_null (v : jsval) : bool :=
  match v with
  | JNull => true
  | _ => false
  end.

(** The error messages a run reported: its [setError] calls with an
    argument other than [null]. *)
Fixpoint error_reports (tr : list event) : list jsval :=
  match tr with
  | [] => []
  | Did (SetError v) :: rest =>
      if is_null v then error_reports rest else v :: error_reports rest
  | _ :: rest => error_reports rest
  end.

(* ===================================================================== *)
(** ** The handlers of [App] *)
(* ===================================================================== *)

(** "銘柄コードを入力してください。": please enter a ticker code. *)
Definition validation_message : string := "銘柄コードを入力してください。".

(** "データの取得に失敗しました。APIサーバーが起動しているか確認してください。":
    fetching the data failed, check that the API server is running. *)
Definition transport_message : string :=
  "データの取得に失敗しました。APIサーバーが起動しているか確認してください。".

(** [`http://127.0.0.1:5000/api/stock_data/${ticker}`] *)
Definition request_url (ticker : string) : string :=
  "http://127.0.0.1:5000/api/stock_data/" ++ ticker.

(** [const handleSearch = async () => { ... }], with the [ticker] of the
    render that created it. *)
Definition handleSearch (ticker : string) : task unit :=
  if negb (truthy (JStr ticker)) then
    setError (JStr validation_message) ;;
    ret tt
  else
    setLoading true ;;
    setError JNull ;;
    setStockData JNull ;;
    try_finally
      (catch
         (response <- axios_get (request_url ticker) ;;
          e <- lift (read_error (data response)) ;;
          if truthy e then
            e' <- lift (read_error (data response)) ;;
            setError e'
          else
            setStockData (data response))
         (fun err =>
            console_error [JStr "API request failed:"; err] ;;
            setError (JStr transport_message)))
      (setLoading false).

(** [onChange={(e) => setTicker(e.target.value.toUpperCase())}] *)
Definition onChange (value : string) : task unit :=
  setTicker (toUpperCase value).

(** A click on the search button, run to completion. *)
Definition search (net : string -> settled) (s : state) : run unit :=
  exec net (handleSearch (ticker s)) s.

(** The component right after the click, before the request settles. *)
Definition search_started (s : state) : progress unit :=
  start (handleSearch (ticker s)) s.

(** The user's actions: typing into the input (the new content of the
    field) and clicking the button (with the way the request settles). *)
Inductive action : Type :=
| Change (value : string)
| Click (o : settled).

Definition react (s : state) (a : action) : state :=
  match a with
  | Change value => transient (start (onChange value) s)
  | Click o => final (search (fun _ => o) s)
  end.

(** The state after a sequence of actions on a freshly mounted component. *)
Definition session (acts : list action) : state := fold_left react acts initial.

(* ===================================================================== *)
(** ** Sample data *)
(* ===================================================================== *)

(** [[{"date":"2024-01-01","close":100}, {"date":"2024-01-02","close":102}]] *)
Definition sample_series : jsval :=
  JArr [JObj [("date", JStr "2024-01-01"); ("close", number 100)];
        JObj [("date", JStr "2024-01-02"); ("close", number 102)]].

(** [{ "error": "not found" }] *)
Definition not_found : jsval := JObj [("error", JStr "not found")].

(** [{ "error": "" }] *)
Definition empty_error : jsval := JObj [("error", JStr "")].

(** An HTTP 200 response with the given body. *)
Definition ok (body : jsval) : response := {| data := body; status := 200 |}.

(** A backend that answers every request with [r]. *)
Definition answers (r : response) : string -> settled := fun _ => Fulfilled r.

(** A backend that cannot be reached. *)
Definition refused : jsval :=
  JObj [("name", JStr "AxiosError"); ("code", JStr "ERR_NETWORK")].

Definition unreachable : string -> settled := fun _ => Rejected refused.

(** The user typed "aapl". *)
Definition typed_aapl : state := session [Change "aapl"].

(** The user typed a single space. *)
Definition typed_space : state := session [Change " "].

(** A chart is on screen and the input has been emptied again. *)
Definition chart_then_cleared : state :=
  session [Change "aapl"; Click (Fulfilled (ok sample_series)); Change ""].

(** A chart for one ticker is on screen and another ticker has been typed. *)
Definition chart_then_msft : state :=
  session [Change "aapl"; Click (Fulfilled (ok sample_series)); Change "msft"].

(* ===================================================================== *)
(** ** What [App] renders *)
(* ===================================================================== *)

(** What a JSX attribute holds: a value, or one of the two handlers.  The
    [onChange] handler is given [e.target.value]. *)
Inductive attr : Type :=
| Val (v : jsval)
| OnChange (h : string -> task unit)
| OnClick (h : task unit).

(** A React element tree.  A child is an element or a value: JSX text is a
    string value, an [{expression}] is the value it evaluates to. *)
Inductive vnode : Type :=
| Child (v : jsval)
| Element (tag : string) (attrs : list (string * attr)) (children : list vnode).

(** [v && <element>]: the element when [v] is truthy, otherwise [v]. *)
Definition and_then (v : jsval) (n : vnode) : vnode :=
  if truthy v then n else Child v.

(** [const styles = `...`] *)
Definition styles : string := "
  body {
    font-family: -apple-system, BlinkMacSystemFont, 'Segoe UI', 'Roboto', 'Oxygen',
      'Ubuntu', 'Cantarell', 'Fira Sans', 'Droid Sans', 'Helvetica Neue',
      sans-serif;
    -webkit-font-smoothing: antialiased;
    -moz-osx-font-smoothing: grayscale;
    background-color: #f4f7f6;
    color: #333;
    padding: 20px;
  }
  /* ...CSS定義は省略... */
  .message.error {
    color: #e74c3c;
  }
".

(** [<p className="message">データを読み込んでいます...</p>] *)
Definition loading_message : vnode :=
  Element "p" [("className", Val (JStr "message"))]
    [Child (JStr "データを読み込んでいます...")].

(** [<p className="message error">{error}</p>] *)
Definition error_message (error : jsval) : vnode :=
  Element "p" [("className", Val (JStr "message error"))] [Child error].

(** [<ResponsiveContainer ...><LineChart data={stockData} ...>...]; a
    single space between an element and the comment that follows it on
    the same line is a text child. *)
Definition chart (stockData : jsval) : vnode :=
  Element "ResponsiveContainer"
    [("width", Val (JStr "100%")); ("height", Val (number 400))]
    [Element "LineChart"
       [("data", Val stockData);
        ("margin", Val (JObj [("top", number 5); ("right", number 30);
                              ("left", number 20); ("bottom", number 5)]))]
       [Element "CartesianGrid" [("strokeDasharray", Val (JStr "3 3"))] [];
        Child (JStr " ");
        Element "XAxis" [("dataKey", Val (JStr "date"))] [];
        Child (JStr " ");
        Element "YAxis"
          [("domain", Val (JArr [JStr "dataMin"; JStr "dataMax"]))] [];
        Child (JStr " ");
        Element "Tooltip" [] [];
        Child (JStr " ");
        Element "Legend" [] [];
        Child (JStr " ");
        Element "Line"
          [("type", Val (JStr "monotone")); ("dataKey", Val (JStr "close"));
           ("stroke", Val (JStr "#8884d8")); ("name", Val (JStr "終値"))] [];
        Child (JStr " ")]].

(** The children of [<div className="chart-container">]. *)
Definition chart_container (s : state) : list vnode :=
  [and_then (JBool (loading s)) loading_message;
   and_then (error s) (error_message (error s));
   and_then (stockData s) (chart (stockData s))].

(** [<button onClick={handleSearch} disabled={loading}>] *)
Definition button (s : state) : vnode :=
  Element "button"
    [("onClick", OnClick (handleSearch (ticker s)));
     ("disabled", Val (JBool (loading s)))]
    [Child (JStr (if loading s then "検索中..." else "検索"))].

(** [return ( <> ... </> )] *)
Definition App (s : state) : vnode :=
  Element "React.Fragment" []
    [Element "style" [] [Child (JStr styles)];
     Element "div" [("className", Val (JStr "container"))]
       [Element "h1" [] [Child (JStr "株価チャート表示アプリ")];
        Element "div" [("className", Val (JStr "search-bar"))]
          [Element "input"
             [("type", Val (JStr "text"));
              ("value", Val (JStr (ticker s)));
              ("onChange", OnChange onChange);
              ("placeholder", Val (JStr "銘柄コード (例: AAPL, 7203.T)"))]
             [];
           button s];
        Element "div" [("className", Val (JStr "chart-container"))]
          (chart_container s)]].

(* ===================================================================== *)
(** ** The mounted component *)
(* ===================================================================== *)

(** The attributes of the first element with the given tag, in document
    order. *)
Fixpoint find (tag : string) (n : vnode) : option (list (string * attr)) :=
  match n with
  | Child _ => None
  | Element t attrs children =>
      if String.eqb t tag then Some attrs
      else
        (fix first (l : list vnode) : option (list (string * attr)) :=
           match l with
           | [] => None
           | c :: rest =>
               match find tag c with
               | Some a => Some a
               | None => first rest
               end
           end) children
  end.

Fixpoint attr_of (name : string) (attrs : list (string * attr)) : option attr :=
  match attrs with
  | [] => None
  | (k, a) :: rest => if String.eqb k name then Some a else attr_of name rest
  end.

(** A button whose [disabled] attribute is truthy takes no clicks. *)
Definition is_disabled (attrs : list (string * attr)) : bool :=
  match attr_of "disabled" attrs with
  | Some (Val v) => truthy v
  | _ => false
  end.

(** The component between events: its state, the handlers suspended at a
    request (oldest first), and the URLs requested so far. *)
Record app : Type := mkApp {
  ui : state;
  inflight : list (string * (settled -> task unit));
  sent : list string
}.

Definition mounted : app := {| ui := initial; inflight := []; sent := [] |}.

(** Takes in where a handler got to: its state, and its request if it
    suspended. *)
Definition advance (a : app) (p : progress unit) : app :=
  match p with
  | Completed s _ => {| ui := s; inflight := inflight a; sent := sent a |}
  | Pending s url k =>
      {| ui := s; inflight := inflight a ++ [(url, k)]; sent := sent a ++ [url] |}
  end.

Fixpoint remove_nth {A : Type} (i : nat) (l : list A) : list A :=
  match l, i with
  | [], _ => []
  | _ :: rest, O => rest
  | x :: rest, S j => x :: remove_nth j rest
  end.

(** What happens to the page: the user edits the input, presses the
    button, or the [i]-th request in flight settles. *)
Inductive happening : Type :=
| Typing (value : string)
| Press
| Arrival (i : nat) (o : settled).

(** One event, handled in a task of its own: React has committed the
    state the previous event left before this one is dispatched, so the
    handler is the one [App] renders for the current state; it is run up
    to its first [await].  An arrival resumes the suspended handler on the
    current state.  Two clicks dispatched within one task are not two
    events of this model: both would run the handler of the same render,
    the second one before [disabled] has reached the button. *)
Definition step (a : app) (ev : happening) : app :=
  match ev with
  | Typing value =>
      match find "input" (App (ui a)) with
      | Some attrs =>
          match attr_of "onChange" attrs with
          | Some (OnChange h) => advance a (start (h value) (ui a))
          | _ => a
          end
      | None => a
      end
  | Press =>
      match find "button" (App (ui a)) with
      | Some attrs =>
          if is_disabled attrs then a
          else
            match attr_of "onClick" attrs with
            | Some (OnClick h) => advance a (start h (ui a))
            | _ => a
            end
      | None => a
      end
  | Arrival i o =>
      match nth_error (inflight a) i with
      | Some (_, k) =>
          advance {| ui := ui a; inflight := remove_nth i (inflight a); sent := sent a |}
                  (start (k o) (ui a))
      | None => a
      end
  end.

(** The component after a sequence of events since it was mounted, each
    committed before the next. *)
Definition play (evs : list happening) : app := fold_left step evs mounted.

(** How often the button was pressed. *)
Fixpoint presses (evs : list happening) : nat :=
  match evs with
  | [] => 0
  | Press :: rest => S (presses rest)
  | _ :: rest => presses rest
  end.

(** What a resumed handler does to the state it finds: it completes
    normally, leaves the ticker, lowers [loading], and writes [stockData]
    and [error] or leaves them; an error it writes is truthy. *)
Definition writes_back (k : settled -> task unit) : Prop :=
  forall o : settled,
  exists sd er : option jsval,
    (forall e, er = Some e -> truthy e = true) /\
    forall s : state,
      start (k o) s =
        Completed
          {| ticker := ticker s;
             stockData := match sd with Some d => d | None => stockData s end;
             loading := false;
             error := match er with Some e => e | None => error s end |}
          (Normal tt).

(** The URL asks for a ticker that is not empty and has no lower-case
    letter. *)
Definition asks_for_ticker (url : string) : Prop :=
  exists t : string, url = request_url t /\ t <> "" /\ no_lowercase t = true.

(** What holds of the component between any two events. *)
Definition settled_or_waiting (a : app) : Prop :=
  (inflight a = [] /\ loading (ui a) = false) \/
  (exists url k,
     inflight a = [(url, k)] /\ writes_back k /\
     loading (ui a) = true /\ stockData (ui a) = JNull /\ error (ui a) = JNull).

(** The invariant of the mounted component. *)
Definition consistent (a : app) : Prop :=
  no_lowercase (ticker (ui a)) = true /\
  (error (ui a) = JNull \/ truthy (error (ui a)) = true) /\
  Forall asks_for_ticker (sent a) /\
  settled_or_waiting a.

(* ===================================================================== *)
(** ** Facts about tasks *)
(* ===================================================================== *)

Arguments request_url : simpl never.
Arguments assoc : simpl never.

(** A run is the synchronous prefix followed by the run of what the first
    [await] resumes with. *)
Lemma exec_start {A : Type} (net : string -> settled) (t : task A) (s : state) :
  match start t s with
  | Completed s' c =>
      final (exec net t s) = s' /\
      result (exec net t s) = c /\
      requests (trace (exec net t s)) = []
  | Pending s' url k =>
      final (exec net t s) = final (exec net (k (net url)) s') /\
      result (exec net t s) = result (exec net (k (net url)) s') /\
      requests (trace (exec net t s)) =
        url :: requests (trace (exec net (k (net url)) s'))
  end.
Proof.
  revert s.
  induction t as [a | e | op k IH | url k IH]; intros s; cbn; auto.
  specialize (IH (apply op s)).
  destruct (start k (apply op s)); exact IH.
Qed.

(** The [finally] block has the last word on the cell it sets. *)
Lemma try_finally_loading {A : Type} (net : string -> settled) (t : task A)
    (b : bool) (s : state) :
  loading (final (exec net (try_finally t (setLoading b)) s)) = b.
Proof.
  revert s.
  induction t as [a | e | op k IH | url k IH]; intros s; cbn; auto.
Qed.

(** A run that never calls [setTicker] leaves the ticker alone. *)
Lemma ticker_frame {A : Type} (net : string -> settled) (t : task A) (s : state) :
  ticker_writes (trace (exec net t s)) = [] ->
  ticker (final (exec net t s)) = ticker s.
Proof.
  revert s.
  induction t as [a | e | op k IH | url k IH]; intros s; cbn; auto.
  destruct op; cbn; intros H; try discriminate; rewrite (IH _ H); reflexivity.
Qed.

(** [!ticker] holds of the empty string only. *)
Lemma truthy_ticker (t : string) : truthy (JStr t) = true <-> t <> "".
Proof.
  destruct t; cbn; split; intros H; congruence.
Qed.

(* ===================================================================== *)
(** ** Upper-casing *)
(* ===================================================================== *)

Arguments uppercase_table : simpl never.
Arguments uppercase_of : simpl never.

(** *** Bytes *)

Lemma upper_char_not_lower (c : ascii) : is_lower (upper_char c) = false.
Proof.
  destruct c as [[] [] [] [] [] [] [] []]; reflexivity.
Qed.

Lemma upper_char_fixed (c : ascii) : is_lower c = false -> upper_char c = c.
Proof.
  unfold upper_char, is_lower. intros ->. reflexivity.
Qed.

Lemma upper_char_width (c : ascii) : width c = 1 -> width (upper_char c) = 1.
Proof.
  destruct c as [[] [] [] [] [] [] [] []]; vm_compute; congruence.
Qed.

Lemma cont_width (b : ascii) : is_cont b = true -> width b = 0.
Proof.
  destruct b as [[] [] [] [] [] [] [] []]; vm_compute; congruence.
Qed.

Lemma width_1_not_cont (b : ascii) : width b = 1 -> is_cont (upper_char b) = false.
Proof.
  destruct b as [[] [] [] [] [] [] [] []]; vm_compute; congruence.
Qed.

Lemma wide_not_lower (b : ascii) : width b <> 1 -> is_lower b = false.
Proof.
  destruct b as [[] [] [] [] [] [] [] []]; vm_compute; congruence.
Qed.

Lemma lead_not_cont (b : ascii) : width b <> 0 -> is_cont b = false.
Proof.
  destruct b as [[] [] [] [] [] [] [] []]; vm_compute; congruence.
Qed.

(** *** The table *)

Lemma table_ok : forallb entry_ok uppercase_table = true.
Proof. vm_compute. reflexivity. Qed.

Lemma lookup_In (key w : string) (table : list (string * string)) :
  lookup key table = Some w -> In (key, w) table.
Proof.
  induction table as [| [k v] rest IH]; cbn [lookup]; [discriminate |].
  destruct (String.eqb_spec k key) as [-> | _].
  - intros H. injection H as ->. left. reflexivity.
  - intros H. right. apply IH, H.
Qed.

Lemma uppercase_of_ok (key w : string) :
  uppercase_of key = Some w ->
  whole_character key = true /\ upper_text w = true /\ w <> "".
Proof.
  intros H. apply lookup_In in H.
  pose proof (proj1 (forallb_forall _ _) table_ok _ H) as Hok.
  unfold entry_ok in Hok. cbn [fst snd] in Hok.
  apply andb_true_iff in Hok. destruct Hok as [Hok Hne].
  apply andb_true_iff in Hok. destruct Hok as [Hkey Hw].
  split; [exact Hkey |]. split; [exact Hw |].
  intros ->. discriminate Hne.
Qed.

(** *** One step of upper-casing *)

(** Rewrites with what the case at hand says of the width and the table. *)
Ltac this_case :=
  repeat match goal with
    | E : width ?b = _ |- context [width ?b] => rewrite E
    | E : uppercase_of ?k = _ |- context [uppercase_of ?k] => rewrite E
    end.

Ltac split_and H :=
  repeat match type of H with
    | (_ && _ = true) =>
        let H' := fresh "Hc" in
        apply andb_true_iff in H; destruct H as [H H']
    end.

Lemma toUpperCase_cont (b : ascii) (r : string) :
  is_cont b = true -> toUpperCase (String b r) = String b (toUpperCase r).
Proof.
  intros H. rewrite toUpperCase_equation, (cont_width b H). reflexivity.
Qed.

(** Where no mapping applies the first byte is kept (an ASCII letter is
    upper-cased) and the rest goes on. *)
Lemma toUpperCase_unmapped (b1 : ascii) (rest : string) :
  mapping_at b1 rest = None ->
  toUpperCase (String b1 rest) =
    String (if Nat.eqb (width b1) 1 then upper_char b1 else b1) (toUpperCase rest).
Proof.
  unfold mapping_at. rewrite toUpperCase_equation.
  destruct (width b1) as [| [| [| [| [| n]]]]]; cbn [Nat.eqb]; try reflexivity.
  - destruct rest as [| b2 r2]; [reflexivity |].
    intros ->. reflexivity.
  - destruct rest as [| b2 [| b3 r3]]; try reflexivity.
    intros ->. reflexivity.
  - destruct rest as [| b2 [| b3 [| b4 r4]]]; try reflexivity.
    intros ->. reflexivity.
Qed.

Lemma no_lowercase_app (u v : string) :
  no_lowercase (u ++ v) = no_lowercase u && no_lowercase v.
Proof.
  induction u as [| c u IH]; cbn [append no_lowercase]; [reflexivity |].
  rewrite IH. apply andb_assoc.
Qed.

Lemma cont_not_lower (b : ascii) : is_cont b = true -> is_lower b = false.
Proof.
  intros H. apply wide_not_lower. rewrite (cont_width b H). discriminate.
Qed.

Lemma upper_text_no_lowercase (w : string) :
  upper_text w = true -> no_lowercase w = true.
Proof.
  functional induction (upper_text w); cbn [no_lowercase]; intros H;
    try discriminate H; try reflexivity.
  - apply andb_true_iff in H. destruct H as [H1 H2].
    rewrite H1, (IHb H2). reflexivity.
  - apply andb_true_iff in H. destruct H as [H2 Hr].
    rewrite (wide_not_lower b1), (cont_not_lower b2 H2), (IHb Hr)
      by congruence.
    reflexivity.
  - apply andb_true_iff in H. destruct H as [H Hr].
    apply andb_true_iff in H. destruct H as [H2 H3].
    rewrite (wide_not_lower b1), (cont_not_lower b2 H2),
      (cont_not_lower b3 H3), (IHb Hr) by congruence.
    reflexivity.
  - apply andb_true_iff in H. destruct H as [H Hr].
    apply andb_true_iff in H. destruct H as [H H4].
    apply andb_true_iff in H. destruct H as [H2 H3].
    rewrite (wide_not_lower b1), (cont_not_lower b2 H2),
      (cont_not_lower b3 H3), (cont_not_lower b4 H4), (IHb Hr) by congruence.
    reflexivity.
Qed.

(** Upper-case text is kept, whatever follows it. *)
Lemma upper_text_app (w : string) :
  upper_text w = true ->
  forall t : string, toUpperCase (w ++ t) = w ++ toUpperCase t.
Proof.
  functional induction (upper_text w); intros H t; try discriminate H;
    cbn [append]; [reflexivity | ..];
    rewrite toUpperCase_equation; this_case.
  - apply andb_true_iff in H. destruct H as [H1 Hr].
    apply negb_true_iff in H1.
    rewrite (upper_char_fixed b1 H1), (IHb Hr). reflexivity.
  - apply andb_true_iff in H. destruct H as [H2 Hr].
    rewrite (toUpperCase_cont b2 _ H2), (IHb Hr). reflexivity.
  - apply andb_true_iff in H. destruct H as [H Hr].
    apply andb_true_iff in H. destruct H as [H2 H3].
    rewrite (toUpperCase_cont b2 _ H2), (toUpperCase_cont b3 _ H3), (IHb Hr).
    reflexivity.
  - apply andb_true_iff in H. destruct H as [H Hr].
    apply andb_true_iff in H. destruct H as [H H4].
    apply andb_true_iff in H. destruct H as [H2 H3].
    rewrite (toUpperCase_cont b2 _ H2), (toUpperCase_cont b3 _ H3),
      (toUpperCase_cont b4 _ H4), (IHb Hr).
    reflexivity.
Qed.

Lemma upper_text_head (w : string) :
  upper_text w = true -> w <> "" ->
  exists b r, w = String b r /\ is_cont b = false.
Proof.
  destruct w as [| b r]; [congruence |].
  intros H _. exists b, r. split; [reflexivity |].
  apply lead_not_cont. rewrite upper_text_equation in H.
  destruct (width b); [discriminate H | discriminate].
Qed.

(** Upper-casing leaves no letter a-z. *)
Lemma toUpperCase_no_lowercase (s : string) : no_lowercase (toUpperCase s) = true.
Proof.
  functional induction (toUpperCase s); cbn [no_lowercase];
    rewrite ?no_lowercase_app, ?IHs0;
    try match goal with
      | E : uppercase_of _ = Some ?w |- _ =>
          destruct (uppercase_of_ok _ _ E) as (_ & Hw & _);
          rewrite (upper_text_no_lowercase w Hw)
      end;
    try reflexivity.
  - rewrite upper_char_not_lower. reflexivity.
  - rewrite (wide_not_lower b1) by congruence. reflexivity.
  - rewrite (wide_not_lower b1) by congruence. reflexivity.
  - rewrite (wide_not_lower b1) by congruence. reflexivity.
  - rewrite (wide_not_lower b1) by congruence. reflexivity.
  - rewrite (wide_not_lower b1) by congruence. reflexivity.
  - rewrite (wide_not_lower b1) by congruence. reflexivity.
  - rewrite (wide_not_lower b1); [reflexivity |].
    destruct (width b1) as [| [| [| [| [| n]]]]]; try contradiction; discriminate.
Qed.

(** *** The first byte of the result *)

Lemma toUpperCase_mapped (b1 : ascii) (rest w : string) :
  mapping_at b1 rest = Some w ->
  upper_text w = true /\
  exists b r tail, w = String b r /\ is_cont b = false /\
    toUpperCase (String b1 rest) = w ++ toUpperCase tail.
Proof.
  unfold mapping_at. intros H.
  assert (Hw : upper_text w = true /\ w <> "").
  { destruct (width b1) as [| [| [| [| [| n]]]]]; try discriminate H.
    - destruct rest as [| b2 r2]; [discriminate H |].
      apply uppercase_of_ok in H. tauto.
    - destruct rest as [| b2 [| b3 r3]]; try discriminate H.
      apply uppercase_of_ok in H. tauto.
    - destruct rest as [| b2 [| b3 [| b4 r4]]]; try discriminate H.
      apply uppercase_of_ok in H. tauto. }
  destruct Hw as [Hw Hne]. split; [exact Hw |].
  destruct (upper_text_head w Hw Hne) as (b & r & -> & Hb).
  exists b, r.
  rewrite toUpperCase_equation.
  destruct (width b1) as [| [| [| [| [| n]]]]]; try discriminate H.
  - destruct rest as [| b2 r2]; [discriminate H |].
    rewrite H. exists r2. auto.
  - destruct rest as [| b2 [| b3 r3]]; try discriminate H.
    rewrite H. exists r3. auto.
  - destruct rest as [| b2 [| b3 [| b4 r4]]]; try discriminate H.
    rewrite H. exists r4. auto.
Qed.

(** A result starts with a continuation byte only when the text does. *)
Lemma toUpperCase_head (b : ascii) (r : string) :
  is_cont b = false ->
  exists b' r', toUpperCase (String b r) = String b' r' /\ is_cont b' = false.
Proof.
  intros Hb. destruct (mapping_at b r) as [w |] eqn:Hmap.
  - destruct (toUpperCase_mapped b r w Hmap) as (_ & b' & r' & tail & -> & Hb' & ->).
    exists b', (r' ++ toUpperCase tail). auto.
  - rewrite (toUpperCase_unmapped b r Hmap).
    destruct (Nat.eqb_spec (width b) 1) as [E | _].
    + eexists _, _. split; [reflexivity |]. apply width_1_not_cont, E.
    + eexists _, _. split; [reflexivity | exact Hb].
Qed.

Lemma toUpperCase_cont_inv (r : string) (c : ascii) (rest : string) :
  toUpperCase r = String c rest -> is_cont c = true ->
  exists r', r = String c r' /\ rest = toUpperCase r'.
Proof.
  destruct r as [| b r']; [discriminate |].
  intros H Hc. destruct (is_cont b) eqn:Hb.
  - rewrite (toUpperCase_cont b r' Hb) in H. injection H as -> <-.
    exists r'. auto.
  - destruct (toUpperCase_head b r' Hb) as (b' & t & Ht & Hb').
    rewrite Ht in H. injection H as -> _. congruence.
Qed.

(** A mapping that applies in front of an upper-cased text applied in
    front of the text. *)
Lemma mapping_at_toUpperCase (b1 : ascii) (r w : string) :
  mapping_at b1 (toUpperCase r) = Some w -> mapping_at b1 r = Some w.
Proof.
  unfold mapping_at.
  destruct (width b1) as [| [| [| [| [| n]]]]]; try discriminate.
  - destruct (toUpperCase r) as [| c2 t2] eqn:H2; [discriminate |].
    intros H. pose proof (uppercase_of_ok _ _ H) as (Hkey & _).
    cbn [whole_character] in Hkey. split_and Hkey.
    destruct (toUpperCase_cont_inv r c2 t2 H2 Hc) as (r2 & -> & _).
    exact H.
  - destruct (toUpperCase r) as [| c2 [| c3 t3]] eqn:H2; try discriminate.
    intros H. pose proof (uppercase_of_ok _ _ H) as (Hkey & _).
    cbn [whole_character] in Hkey. split_and Hkey.
    destruct (toUpperCase_cont_inv r c2 _ H2 Hc0) as (r2 & -> & H3).
    destruct (toUpperCase_cont_inv r2 c3 _ (eq_sym H3) Hc) as (r3 & -> & _).
    exact H.
  - destruct (toUpperCase r) as [| c2 [| c3 [| c4 t4]]] eqn:H2; try discriminate.
    intros H. pose proof (uppercase_of_ok _ _ H) as (Hkey & _).
    cbn [whole_character] in Hkey. split_and Hkey.
    destruct (toUpperCase_cont_inv r c2 _ H2 Hc1) as (r2 & -> & H3).
    destruct (toUpperCase_cont_inv r2 c3 _ (eq_sym H3) Hc0) as (r3 & -> & H4).
    destruct (toUpperCase_cont_inv r3 c4 _ (eq_sym H4) Hc) as (r4 & -> & _).
    exact H.
Qed.

(** *** Upper-casing twice *)

Lemma toUpperCase_kept (b1 : ascii) (r : string) :
  width b1 <> 1 ->
  mapping_at b1 r = None ->
  toUpperCase (toUpperCase r) = toUpperCase r ->
  toUpperCase (String b1 (toUpperCase r)) = String b1 (toUpperCase r).
Proof.
  intros Hwide Hnone IH.
  assert (Hnone' : mapping_at b1 (toUpperCase r) = None).
  { destruct (mapping_at b1 (toUpperCase r)) as [w |] eqn:H; [| reflexivity].
    apply mapping_at_toUpperCase in H. congruence. }
  rewrite (toUpperCase_unmapped _ _ Hnone'), IH.
  destruct (Nat.eqb_spec (width b1) 1); [contradiction | reflexivity].
Qed.

Lemma toUpperCase_idempotent (s : string) :
  toUpperCase (toUpperCase s) = toUpperCase s.
Proof.
  functional induction (toUpperCase s);
    try match goal with
      | E : uppercase_of _ = Some ?w |- _ =>
          destruct (uppercase_of_ok _ _ E) as (_ & Hw & _);
          rewrite (upper_text_app w Hw), IHs0; reflexivity
      end.
  - reflexivity.
  - rewrite toUpperCase_equation, (upper_char_width b1 e0), IHs0.
    rewrite (upper_char_fixed _ (upper_char_not_lower b1)). reflexivity.
  - apply toUpperCase_kept; [congruence | | exact IHs0].
    unfold mapping_at. this_case. reflexivity.
  - apply toUpperCase_kept; [congruence | | exact IHs0].
    unfold mapping_at. this_case.
    match goal with |- match ?x with _ => _ end = _ => destruct x end;
      [reflexivity | contradiction].
  - apply toUpperCase_kept; [congruence | | exact IHs0].
    unfold mapping_at. this_case. reflexivity.
  - apply toUpperCase_kept; [congruence | | exact IHs0].
    unfold mapping_at. this_case.
    match goal with |- match ?x with _ => _ end = _ =>
      destruct x as [| ? [| ? ?]] end; try reflexivity; contradiction.
  - apply toUpperCase_kept; [congruence | | exact IHs0].
    unfold mapping_at. this_case. reflexivity.
  - apply toUpperCase_kept; [congruence | | exact IHs0].
    unfold mapping_at. this_case.
    match goal with |- match ?x with _ => _ end = _ =>
      destruct x as [| ? [| ? [| ? ?]]] end; try reflexivity; contradiction.
  - apply toUpperCase_kept; [| | exact IHs0].
    + destruct (width b1) as [| [| n]]; try contradiction; discriminate.
    + unfold mapping_at.
      destruct (width b1) as [| [| [| [| [| n]]]]]; try contradiction; reflexivity.
Qed.

(** Only the empty text upper-cases to the empty text. *)
Lemma toUpperCase_nonempty (b : ascii) (r : string) :
  toUpperCase (String b r) <> "".
Proof.
  destruct (is_cont b) eqn:Hb.
  - rewrite (toUpperCase_cont b r Hb). discriminate.
  - destruct (toUpperCase_head b r Hb) as (b' & r' & -> & _). discriminate.
Qed.

(** On ASCII text upper-casing works byte by byte. *)
Lemma ascii_width (b : ascii) : (N_of_ascii b <? 0x80)%N = true -> width b = 1.
Proof.
  destruct b as [[] [] [] [] [] [] [] []]; vm_compute; congruence.
Qed.

Lemma toUpperCase_ascii (s : string) :
  ascii_text s = true -> toUpperCase s = each_byte upper_char s.
Proof.
  induction s as [| b rest IH]; cbn [ascii_text each_byte]; intros H.
  - reflexivity.
  - apply andb_true_iff in H. destruct H as [Hb Hrest].
    rewrite toUpperCase_equation, (ascii_width b Hb), (IH Hrest). reflexivity.
Qed.

(** A character that has a mapping is replaced by it. *)
Lemma toUpperCase_key (key w : string) :
  uppercase_of key = Some w ->
  forall rest : string, toUpperCase (key ++ rest) = w ++ toUpperCase rest.
Proof.
  intros H rest. pose proof (uppercase_of_ok _ _ H) as (Hkey & _).
  destruct key as [| b1 [| b2 [| b3 [| b4 [| b5 k]]]]];
    cbn [whole_character] in Hkey; try discriminate Hkey;
    split_and Hkey; cbn [append]; rewrite toUpperCase_equation.
  - apply Nat.eqb_eq in Hkey. rewrite Hkey, H. reflexivity.
  - apply Nat.eqb_eq in Hkey. rewrite Hkey, H. reflexivity.
  - apply Nat.eqb_eq in Hkey. rewrite Hkey, H. reflexivity.
Qed.

(** The ASCII mapping, in numbers: a-z go down by 32, the rest stays. *)
Lemma upper_char_code (b : ascii) :
  N_of_ascii (upper_char b) =
    (if (97 <=? N_of_ascii b) && (N_of_ascii b <=? 122)
     then N_of_ascii b - 32 else N_of_ascii b)%N.
Proof.
  destruct b as [[] [] [] [] [] [] [] []]; reflexivity.
Qed.

(* ===================================================================== *)
(** ** The runs of [handleSearch] *)
(* ===================================================================== *)

(** Enters the branch of [handleSearch] for a non-empty ticker; the
    context holds a proof that the ticker of [s] is not empty. *)
Ltac nonempty s :=
  let c := fresh "c" in
  let t := fresh "t" in
  unfold search, search_started, handleSearch;
  destruct s as [[| c t] ? ? ?]; cbn [ticker] in *; [congruence |];
  cbn [truthy negb].

Lemma search_empty (net : string -> settled) (s : state) :
  ticker s = "" ->
  search net s =
    {| final := apply (SetError (JStr validation_message)) s;
       trace := [Did (SetError (JStr validation_message))];
       result := Normal tt |}.
Proof.
  intros E. unfold search, handleSearch. rewrite E. reflexivity.
Qed.

Lemma search_rejected (net : string -> settled) (s : state) (reason : jsval) :
  ticker s <> "" ->
  net (request_url (ticker s)) = Rejected reason ->
  search net s =
    {| final := {| ticker := ticker s; stockData := JNull; loading := false;
                   error := JStr transport_message |};
       trace := [Did (SetLoading true); Did (SetError JNull); Did (SetStockData JNull);
                 Requested (request_url (ticker s));
                 Did (ConsoleError [JStr "API request failed:"; reason]);
                 Did (SetError (JStr transport_message));
                 Did (SetLoading false)];
       result := Normal tt |}.
Proof.
  intros Hne Hnet. nonempty s. cbn. rewrite Hnet. reflexivity.
Qed.

Lemma search_read_throws (net : string -> settled) (s : state) (r : response)
    (e : jsval) :
  ticker s <> "" ->
  net (request_url (ticker s)) = Fulfilled r ->
  read_error (data r) = inl e ->
  search net s =
    {| final := {| ticker := ticker s; stockData := JNull; loading := false;
                   error := JStr transport_message |};
       trace := [Did (SetLoading true); Did (SetError JNull); Did (SetStockData JNull);
                 Requested (request_url (ticker s));
                 Did (ConsoleError [JStr "API request failed:"; e]);
                 Did (SetError (JStr transport_message));
                 Did (SetLoading false)];
       result := Normal tt |}.
Proof.
  intros Hne Hnet Hread. nonempty s. cbn. rewrite Hnet. cbn.
  rewrite Hread. reflexivity.
Qed.

Lemma search_error_field (net : string -> settled) (s : state) (r : response)
    (e : jsval) :
  ticker s <> "" ->
  net (request_url (ticker s)) = Fulfilled r ->
  read_error (data r) = inr e ->
  truthy e = true ->
  search net s =
    {| final := {| ticker := ticker s; stockData := JNull; loading := false;
                   error := e |};
       trace := [Did (SetLoading true); Did (SetError JNull); Did (SetStockData JNull);
                 Requested (request_url (ticker s));
                 Did (SetError e);
                 Did (SetLoading false)];
       result := Normal tt |}.
Proof.
  intros Hne Hnet Hread He. nonempty s. cbn. rewrite Hnet. cbn.
  rewrite Hread. cbn. rewrite He. reflexivity.
Qed.

Lemma search_data (net : string -> settled) (s : state) (r : response)
    (e : jsval) :
  ticker s <> "" ->
  net (request_url (ticker s)) = Fulfilled r ->
  read_error (data r) = inr e ->
  truthy e = false ->
  search net s =
    {| final := {| ticker := ticker s; stockData := data r; loading := false;
                   error := JNull |};
       trace := [Did (SetLoading true); Did (SetError JNull); Did (SetStockData JNull);
                 Requested (request_url (ticker s));
                 Did (SetStockData (data r));
                 Did (SetLoading false)];
       result := Normal tt |}.
Proof.
  intros Hne Hnet Hread He. nonempty s. cbn. rewrite Hnet. cbn.
  rewrite Hread. cbn. rewrite He. reflexivity.
Qed.

(** The read of [.error] throws on [null] and [undefined] only. *)
Lemma read_error_throws (v : jsval) (e : jsval) :
  read_error v = inl e <-> (v = JNull \/ v = JUndefined) /\ e = TypeError.
Proof.
  split.
  - destruct v; cbn; intros H; try (injection H as <-; auto);
      try discriminate; destruct (assoc _ _); discriminate.
  - intros [[-> | ->] ->]; reflexivity.
Qed.

Lemma read_error_field (v e : jsval) :
  own_field "error" v = Some e -> read_error v = inr e.
Proof.
  destruct v; cbn; try discriminate. intros ->. reflexivity.
Qed.

Lemma read_error_no_field (v : jsval) :
  v <> JNull -> v <> JUndefined -> own_field "error" v = None ->
  read_error v = inr JUndefined.
Proof.
  destruct v; cbn; try congruence. intros _ _ ->. reflexivity.
Qed.

(** Case analysis on how a search with a non-empty ticker went. *)
Ltac by_outcome net s Hne :=
  let r := fresh "r" in
  let reason := fresh "reason" in
  let e := fresh "e" in
  let Hnet := fresh "Hnet" in
  let Hread := fresh "Hread" in
  let He := fresh "He" in
  destruct (net (request_url (ticker s))) as [r | reason] eqn:Hnet;
  [ destruct (read_error (data r)) as [e | e] eqn:Hread;
    [ rewrite (search_read_throws net s r e Hne Hnet Hread)
    | destruct (truthy e) eqn:He;
      [ rewrite (search_error_field net s r e Hne Hnet Hread He)
      | rewrite (search_data net s r e Hne Hnet Hread He) ] ]
  | rewrite (search_rejected net s reason Hne Hnet) ].

Lemma search_ticker_writes (net : string -> settled) (s : state) :
  ticker_writes (trace (search net s)) = [].
Proof.
  destruct (string_dec (ticker s) "") as [E | Hne].
  - rewrite (search_empty net s E). reflexivity.
  - by_outcome net s Hne; reflexivity.
Qed.

Lemma search_ticker (net : string -> settled) (s : state) :
  ticker (final (search net s)) = ticker s.
Proof.
  apply ticker_frame, search_ticker_writes.
Qed.

(** Every action keeps the ticker free of lower-case letters. *)
Lemma react_no_lowercase (s : state) (a : action) :
  no_lowercase (ticker s) = true -> no_lowercase (ticker (react s a)) = true.
Proof.
  intros H. destruct a as [value | o]; cbn [react].
  - cbn. apply toUpperCase_no_lowercase.
  - rewrite search_ticker. exact H.
Qed.

(** Every action keeps the ticker a fixed point of upper-casing. *)
Lemma react_uppercase (s : state) (a : action) :
  toUpperCase (ticker s) = ticker s ->
  toUpperCase (ticker (react s a)) = ticker (react s a).
Proof.
  intros H. destruct a as [value | o]; cbn [react].
  - cbn. apply toUpperCase_idempotent.
  - rewrite search_ticker. exact H.
Qed.

Lemma actions_uppercase (acts : list action) (s : state) :
  toUpperCase (ticker s) = ticker s ->
  toUpperCase (ticker (fold_left react acts s)) =
    ticker (fold_left react acts s).
Proof.
  revert s.
  induction acts as [| a rest IH]; intros s H; cbn [fold_left].
  - exact H.
  - apply IH, react_uppercase, H.
Qed.

Lemma actions_no_lowercase (acts : list action) (s : state) :
  no_lowercase (ticker s) = true ->
  no_lowercase (ticker (fold_left react acts s)) = true.
Proof.
  revert s.
  induction acts as [| a rest IH]; intros s H; cbn [fold_left].
  - exact H.
  - apply IH, react_no_lowercase, H.
Qed.

(* ===================================================================== *)
(** ** The search flow *)
(* ===================================================================== *)

(** C1 (as amended): with an empty ticker, [search] issues no request,
    never calls [setLoading] and so leaves [loading] as it was, completes
    without suspending, and sets [error] to the validation message. *)
Theorem search_empty_ticker (net : string -> settled) (s : state) :
  ticker s = "" ->
  requests (trace (search net s)) = [] /\
  loading_writes (trace (search net s)) = [] /\
  loading (final (search net s)) = loading s /\
  search_started s = Completed (final (search net s)) (Normal tt) /\
  error (final (search net s)) = JStr validation_message.
Proof.
  intros E. rewrite (search_empty net s E).
  unfold search_started, handleSearch. rewrite E. cbn. auto.
Qed.

Lemma search_empty_ticker_witness :
  requests (trace (search unreachable initial)) = [] /\
  loading_writes (trace (search unreachable initial)) = [] /\
  loading (final (search unreachable initial)) = false /\
  search_started initial = Completed (final (search unreachable initial)) (Normal tt) /\
  error (final (search unreachable initial)) = JStr validation_message.
Proof.
  apply (search_empty_ticker unreachable initial). reflexivity.
Defined.

(** C1 (as stated) fails on a ticker of one space: it is white space only,
    yet the request is issued, [loading] is raised and lowered, and the
    validation message is not what [error] ends with. *)
Lemma search_blank_ticker_requests :
  ticker typed_space = " " /\
  blank (ticker typed_space) = true /\
  requests (trace (search unreachable typed_space)) = [request_url " "] /\
  loading_writes (trace (search unreachable typed_space)) = [true; false] /\
  loading (transient (search_started typed_space)) = true /\
  error (final (search unreachable typed_space)) <> JStr validation_message.
Proof.
  repeat split; try reflexivity. cbn. discriminate.
Qed.

(** C2 (as amended): when the request is fulfilled and the [error] field of
    the body is truthy, whatever the status of the response, [error] ends
    as the value of that field and [stockData] as [null]. *)
Theorem search_domain_error (net : string -> settled) (s : state)
    (r : response) (e : jsval) :
  ticker s <> "" ->
  net (request_url (ticker s)) = Fulfilled r ->
  own_field "error" (data r) = Some e ->
  truthy e = true ->
  error (final (search net s)) = e /\
  stockData (final (search net s)) = JNull /\
  forall (net' : string -> settled) (r' : response),
    net' (request_url (ticker s)) = Fulfilled r' ->
    data r' = data r ->
    search net' s = search net s.
Proof.
  intros Hne Hnet Hfield He.
  pose proof (read_error_field _ _ Hfield) as Hread.
  rewrite (search_error_field net s r e Hne Hnet Hread He).
  cbn. split; [| split]; auto.
  intros net' r' Hnet' Hdata. rewrite <- Hdata in Hread.
  apply (search_error_field net' s r' e Hne Hnet' Hread He).
Qed.

Lemma search_domain_error_witness :
  error (final (search (answers (ok not_found)) typed_aapl)) = JStr "not found" /\
  stockData (final (search (answers (ok not_found)) typed_aapl)) = JNull /\
  search (answers {| data := not_found; status := 404 |}) typed_aapl =
    search (answers (ok not_found)) typed_aapl.
Proof.
  assert (Hne : ticker typed_aapl <> "") by discriminate.
  destruct (search_domain_error (answers (ok not_found)) typed_aapl
              (ok not_found) (JStr "not found") Hne eq_refl eq_refl eq_refl)
    as [Herror [Hdata Hbody]].
  split; [exact Herror | split; [exact Hdata |]].
  apply (Hbody _ {| data := not_found; status := 404 |}); reflexivity.
Defined.

(** C2 (as stated) fails on the body [{ "error": "" }]: the field is there,
    but it is falsy, so the body is stored as [stockData] and [error] stays
    [null]. *)
Lemma search_empty_error_field :
  own_field "error" (data (ok empty_error)) = Some (JStr "") /\
  error (final (search (answers (ok empty_error)) typed_aapl)) = JNull /\
  error (final (search (answers (ok empty_error)) typed_aapl)) <> JStr "" /\
  stockData (final (search (answers (ok empty_error)) typed_aapl)) = empty_error /\
  stockData (final (search (answers (ok empty_error)) typed_aapl)) <> JNull.
Proof.
  repeat split; try reflexivity; cbn; discriminate.
Qed.

(** C3 (as amended): when the request is fulfilled with a body that is
    neither [null] nor [undefined] and whose [error] field is absent or
    falsy, [stockData] ends as that body, whatever it held before, set by
    one call, and [error] ends as [null]. *)
Theorem search_success (net : string -> settled) (s : state) (r : response) :
  ticker s <> "" ->
  net (request_url (ticker s)) = Fulfilled r ->
  data r <> JNull ->
  data r <> JUndefined ->
  (forall e, own_field "error" (data r) = Some e -> truthy e = false) ->
  stockData (final (search net s)) = data r /\
  error (final (search net s)) = JNull /\
  stockData_writes (trace (search net s)) = [JNull; data r].
Proof.
  intros Hne Hnet Hnull Hundef Hfalsy.
  destruct (own_field "error" (data r)) as [e |] eqn:Hfield.
  - rewrite (search_data net s r e Hne Hnet (read_error_field _ _ Hfield)
               (Hfalsy e eq_refl)).
    cbn. auto.
  - rewrite (search_data net s r JUndefined Hne Hnet
               (read_error_no_field _ Hnull Hundef Hfield) eq_refl).
    cbn. auto.
Qed.

Lemma search_success_witness :
  stockData (final (search (answers (ok sample_series)) chart_then_msft)) = sample_series /\
  error (final (search (answers (ok sample_series)) chart_then_msft)) = JNull /\
  stockData_writes (trace (search (answers (ok sample_series)) chart_then_msft)) =
    [JNull; sample_series].
Proof.
  apply (search_success (answers (ok sample_series)) chart_then_msft (ok sample_series)).
  - discriminate.
  - reflexivity.
  - discriminate.
  - discriminate.
  - intros e H. discriminate H.
Defined.

(** C3 (as stated) fails on the body [null]: the request succeeded and the
    body has no [error] field, but reading the field throws, so [error]
    ends as the transport message. *)
Lemma search_null_body_sets_error :
  own_field "error" (data (ok JNull)) = None /\
  error (final (search (answers (ok JNull)) typed_aapl)) = JStr transport_message /\
  error (final (search (answers (ok JNull)) typed_aapl)) <> JNull.
Proof.
  repeat split; cbn; discriminate.
Qed.

(** C4: when the request is rejected, [error] ends as the fixed transport
    message and [stockData] as [null]; the final state is the same for
    every rejection reason, which goes to [console.error] and nowhere
    else. *)
Theorem search_transport_error (net : string -> settled) (s : state)
    (reason : jsval) :
  ticker s <> "" ->
  net (request_url (ticker s)) = Rejected reason ->
  final (search net s) =
    {| ticker := ticker s; stockData := JNull; loading := false;
       error := JStr transport_message |} /\
  console (trace (search net s)) = [[JStr "API request failed:"; reason]] /\
  error_reports (trace (search net s)) = [JStr transport_message].
Proof.
  intros Hne Hnet. rewrite (search_rejected net s reason Hne Hnet).
  cbn. auto.
Qed.

Lemma search_transport_error_witness :
  final (search unreachable typed_aapl) =
    {| ticker := "AAPL"; stockData := JNull; loading := false;
       error := JStr transport_message |} /\
  console (trace (search unreachable typed_aapl)) =
    [[JStr "API request failed:"; refused]] /\
  error_reports (trace (search unreachable typed_aapl)) = [JStr transport_message].
Proof.
  apply (search_transport_error unreachable typed_aapl refused).
  - discriminate.
  - reflexivity.
Defined.

(** C5: with a non-empty ticker, [search] suspends at the request with
    [loading] true, and however the request settles [loading] ends false,
    having been set to true once and to false once, in that order. *)
Theorem search_loading (s : state) :
  ticker s <> "" ->
  awaiting (search_started s) = Some (request_url (ticker s)) /\
  loading (transient (search_started s)) = true /\
  forall net : string -> settled,
    loading (final (search net s)) = false /\
    loading_writes (trace (search net s)) = [true; false].
Proof.
  intros Hne. split; [| split].
  - nonempty s. reflexivity.
  - nonempty s. reflexivity.
  - intros net. split.
    + nonempty s. cbn [bind Monad_task task_bind setLoading setError setStockData
                       exec after final].
      apply try_finally_loading.
    + by_outcome net s Hne; reflexivity.
Qed.

Lemma search_loading_witness :
  awaiting (search_started typed_aapl) = Some (request_url "AAPL") /\
  loading (transient (search_started typed_aapl)) = true /\
  loading (final (search unreachable typed_aapl)) = false /\
  loading (final (search (answers (ok not_found)) typed_aapl)) = false /\
  loading (final (search (answers (ok sample_series)) typed_aapl)) = false.
Proof.
  assert (Hne : ticker typed_aapl <> "") by discriminate.
  destruct (search_loading typed_aapl Hne) as [Hurl [Htrue Hfalse]].
  split; [exact Hurl | split; [exact Htrue |]].
  split; [apply Hfalse | split; apply Hfalse].
Defined.

(** C6: with a non-empty ticker, [search] suspends at the request in the
    state where [loading] is true and [error] and [stockData] are [null];
    the run ends as the rest of the handler ends from that state, so two
    searches for the same ticker end alike whatever was shown before. *)
Theorem search_reset (s : state) :
  ticker s <> "" ->
  let cleared :=
    {| ticker := ticker s; stockData := JNull; loading := true; error := JNull |} in
  transient (search_started s) = cleared /\
  awaiting (search_started s) = Some (request_url (ticker s)) /\
  (exists k : settled -> task unit,
     search_started s = Pending cleared (request_url (ticker s)) k /\
     forall net : string -> settled,
       final (search net s) =
         final (exec net (k (net (request_url (ticker s)))) cleared)) /\
  forall (net : string -> settled) (s' : state),
    ticker s' = ticker s -> final (search net s') = final (search net s).
Proof.
  intros Hne cleared. subst cleared.
  split; [| split; [| split]].
  - nonempty s. reflexivity.
  - nonempty s. reflexivity.
  - pose proof (fun net => exec_start net (handleSearch (ticker s)) s) as Hrun.
    fold (search_started s) in Hrun.
    revert Hrun. nonempty s. cbn. intros Hrun.
    eexists. split; [reflexivity |].
    intros net. destruct (Hrun net) as [Hfinal _]. exact Hfinal.
  - intros net s' E. unfold search. rewrite E.
    destruct s as [tk sd ld er], s' as [tk' sd' ld' er'].
    cbn [ticker] in *. subst tk'.
    unfold handleSearch. destruct tk as [| c t]; [congruence |].
    reflexivity.
Qed.

Lemma search_reset_witness :
  transient (search_started chart_then_msft) =
    {| ticker := "MSFT"; stockData := JNull; loading := true; error := JNull |} /\
  awaiting (search_started chart_then_msft) = Some (request_url "MSFT") /\
  final (search (answers (ok not_found)) chart_then_msft) =
    final (search (answers (ok not_found)) (session [Change "msft"])).
Proof.
  assert (Hne : ticker chart_then_msft <> "") by discriminate.
  destruct (search_reset chart_then_msft Hne) as [Hstate [Hurl [_ Hsame]]].
  split; [exact Hstate | split; [exact Hurl |]].
  symmetry. apply Hsame. reflexivity.
Defined.

(** C7 (as amended): a run reports at most one error; when the request was
    issued and [error] ends set, [stockData] ends [null]; the validation
    error leaves [stockData] as it was. *)
Theorem search_error_outcomes (net : string -> settled) (s : state) :
  length (error_reports (trace (search net s))) <= 1 /\
  (ticker s <> "" ->
   error (final (search net s)) <> JNull ->
   stockData (final (search net s)) = JNull) /\
  (ticker s = "" ->
   error (final (search net s)) = JStr validation_message /\
   stockData (final (search net s)) = stockData s).
Proof.
  split; [| split].
  - destruct (string_dec (ticker s) "") as [E | Hne].
    + rewrite (search_empty net s E). cbn. lia.
    + by_outcome net s Hne; cbn; try lia.
      destruct e; cbn in *; try discriminate; lia.
  - intros Hne. by_outcome net s Hne; cbn; congruence.
  - intros E. rewrite (search_empty net s E). cbn. auto.
Qed.

Lemma search_error_outcomes_witness :
  length (error_reports (trace (search (answers (ok not_found)) chart_then_msft))) <= 1 /\
  stockData (final (search (answers (ok not_found)) chart_then_msft)) = JNull /\
  stockData (final (search unreachable chart_then_cleared)) = sample_series.
Proof.
  destruct (search_error_outcomes (answers (ok not_found)) chart_then_msft)
    as [Hone [Hclears _]].
  destruct (search_error_outcomes unreachable chart_then_cleared)
    as [_ [_ Hkeeps]].
  split; [exact Hone | split].
  - apply Hclears; discriminate.
  - apply Hkeeps. reflexivity.
Defined.

(** C7 (as stated) fails once a chart is on screen and the input has been
    emptied: the search ends with the validation error set and the chart
    still in [stockData]. *)
Lemma search_validation_keeps_chart :
  ticker chart_then_cleared = "" /\
  stockData chart_then_cleared = sample_series /\
  error (final (search unreachable chart_then_cleared)) = JStr validation_message /\
  error (final (search unreachable chart_then_cleared)) <> JNull /\
  stockData (final (search unreachable chart_then_cleared)) = sample_series /\
  stockData (final (search unreachable chart_then_cleared)) <> JNull.
Proof.
  repeat split; cbn; discriminate.
Qed.

(** C8: the input handler stores the upper-cased text and touches nothing
    else, for every text; typing "aapl" stores "AAPL".  Upper-casing is the
    mapping of the platform: on ASCII text it lowers the code of each
    letter a-z by 32 and keeps every other byte, and a character with an
    upper-case mapping is replaced by it, which may change the length.
    After any sequence of edits and searches the ticker is upper-case:
    upper-casing it changes nothing, and it holds no letter a-z. *)
Theorem ticker_uppercase :
  (forall (net : string -> settled) (raw : string) (s : state),
     final (exec net (onChange raw) s) =
       {| ticker := toUpperCase raw; stockData := stockData s;
          loading := loading s; error := error s |}) /\
  ticker (react initial (Change "aapl")) = "AAPL" /\
  (forall raw : string,
     ascii_text raw = true -> toUpperCase raw = each_byte upper_char raw) /\
  (forall b : ascii,
     N_of_ascii (upper_char b) =
       (if (97 <=? N_of_ascii b) && (N_of_ascii b <=? 122)
        then N_of_ascii b - 32 else N_of_ascii b)%N) /\
  (forall key w rest : string,
     uppercase_of key = Some w ->
     toUpperCase (key ++ rest) = w ++ toUpperCase rest) /\
  (toUpperCase "abcdefghijklmnopqrstuvwxyz" = "ABCDEFGHIJKLMNOPQRSTUVWXYZ" /\
   toUpperCase "7203.t" = "7203.T" /\
   toUpperCase "é" = "É" /\
   toUpperCase "straße" = "STRASSE") /\
  (forall acts : list action,
     toUpperCase (ticker (session acts)) = ticker (session acts) /\
     no_lowercase (ticker (session acts)) = true).
Proof.
  split; [reflexivity |].
  split; [reflexivity |].
  split; [exact toUpperCase_ascii |].
  split; [exact upper_char_code |].
  split; [intros key w rest H; apply toUpperCase_key, H |].
  split; [repeat split; vm_compute; reflexivity |].
  intros acts. split.
  - apply actions_uppercase. reflexivity.
  - apply actions_no_lowercase. reflexivity.
Qed.

Lemma ticker_uppercase_witness :
  toUpperCase "7203.t" = each_byte upper_char "7203.t" /\
  toUpperCase ("é" ++ "cole") = "É" ++ toUpperCase "cole".
Proof.
  destruct ticker_uppercase as (_ & _ & Hascii & _ & Hkey & _).
  split.
  - apply Hascii. reflexivity.
  - apply (Hkey "é" "É" "cole"). reflexivity.
Defined.

(** C9: when the request is fulfilled with a body that is [null] or
    [undefined], reading its [error] field throws; the exception is logged,
    [error] ends as the transport message, and the only call of
    [setStockData] is the reset that precedes the request. *)
Theorem search_null_body (net : string -> settled) (s : state) (r : response) :
  ticker s <> "" ->
  net (request_url (ticker s)) = Fulfilled r ->
  data r = JNull \/ data r = JUndefined ->
  read_error (data r) = inl TypeError /\
  final (search net s) =
    {| ticker := ticker s; stockData := JNull; loading := false;
       error := JStr transport_message |} /\
  trace (search net s) =
    [Did (SetLoading true); Did (SetError JNull); Did (SetStockData JNull);
     Requested (request_url (ticker s));
     Did (ConsoleError [JStr "API request failed:"; TypeError]);
     Did (SetError (JStr transport_message));
     Did (SetLoading false)].
Proof.
  intros Hne Hnet Hbody.
  assert (Hread : read_error (data r) = inl TypeError)
    by (apply read_error_throws; auto).
  rewrite (search_read_throws net s r TypeError Hne Hnet Hread).
  cbn. auto.
Qed.

Lemma search_null_body_witness :
  final (search (answers (ok JNull)) chart_then_msft) =
    {| ticker := "MSFT"; stockData := JNull; loading := false;
       error := JStr transport_message |} /\
  final (search (answers (ok JUndefined)) chart_then_msft) =
    {| ticker := "MSFT"; stockData := JNull; loading := false;
       error := JStr transport_message |}.
Proof.
  split.
  - apply (search_null_body (answers (ok JNull)) chart_then_msft (ok JNull)).
    + discriminate.
    + reflexivity.
    + left. reflexivity.
  - apply (search_null_body (answers (ok JUndefined)) chart_then_msft (ok JUndefined)).
    + discriminate.
    + reflexivity.
    + right. reflexivity.
Defined.

(** C10: [search] never calls [setTicker], and the ticker it ends with is
    the one it was invoked with. *)
Theorem search_keeps_ticker (net : string -> settled) (s : state) :
  ticker_writes (trace (search net s)) = [] /\
  ticker (final (search net s)) = ticker s.
Proof.
  split.
  - apply search_ticker_writes.
  - apply search_ticker.
Qed.

(* ===================================================================== *)
(** ** Events on the mounted component *)
(* ===================================================================== *)

Lemma find_input (s : state) :
  find "input" (App s) =
    Some [("type", Val (JStr "text"));
          ("value", Val (JStr (ticker s)));
          ("onChange", OnChange onChange);
          ("placeholder", Val (JStr "銘柄コード (例: AAPL, 7203.T)"))].
Proof. reflexivity. Qed.

Lemma find_button (s : state) :
  find "button" (App s) =
    Some [("onClick", OnClick (handleSearch (ticker s)));
          ("disabled", Val (JBool (loading s)))].
Proof. reflexivity. Qed.

Lemma step_typing (a : app) (value : string) :
  step a (Typing value) =
    {| ui := apply (SetTicker (toUpperCase value)) (ui a);
       inflight := inflight a; sent := sent a |}.
Proof. reflexivity. Qed.

Lemma step_press_disabled (a : app) :
  loading (ui a) = true -> step a Press = a.
Proof.
  intros H. unfold step. rewrite find_button.
  unfold is_disabled. cbn. rewrite H. reflexivity.
Qed.

Lemma step_press_enabled (a : app) :
  loading (ui a) = false -> step a Press = advance a (search_started (ui a)).
Proof.
  intros H. unfold step. rewrite find_button.
  unfold is_disabled. cbn. rewrite H. reflexivity.
Qed.

(** Every non-empty search suspends at its request with the same
    continuation, which writes its result back whatever state it finds. *)
Lemma handleSearch_suspends :
  exists k : settled -> task unit,
    writes_back k /\
    forall (t : string) (s : state),
      t <> "" ->
      start (handleSearch t) s =
        Pending {| ticker := ticker s; stockData := JNull; loading := true;
                   error := JNull |}
                (request_url t) k.
Proof.
  eexists. split.
  2: { intros t s Hne. destruct t as [| c t]; [congruence |]. cbn. reflexivity. }
  intros [r | reason]; cbn.
  - destruct (read_error (data r)) as [e | e] eqn:Hread; cbn.
    + exists None, (Some (JStr transport_message)). split.
      * intros e' H. injection H as <-. reflexivity.
      * intros s. reflexivity.
    + destruct (truthy e) eqn:He; cbn.
      * exists None, (Some e). split.
        -- intros e' H. injection H as <-. exact He.
        -- intros s. reflexivity.
      * exists (Some (data r)), None. split.
        -- intros e' H. discriminate H.
        -- intros s. reflexivity.
  - exists None, (Some (JStr transport_message)). split.
    + intros e' H. injection H as <-. reflexivity.
    + intros s. reflexivity.
Qed.

Lemma search_started_empty (s : state) :
  ticker s = "" ->
  search_started s =
    Completed (apply (SetError (JStr validation_message)) s) (Normal tt).
Proof.
  intros E. unfold search_started, handleSearch. rewrite E. reflexivity.
Qed.

Lemma asks_for_ticker_intro (t : string) :
  t <> "" -> no_lowercase t = true -> asks_for_ticker (request_url t).
Proof.
  intros Hne Hup. exists t. auto.
Qed.

(** Every event keeps the component consistent. *)
Lemma step_consistent (a : app) (ev : happening) :
  consistent a -> consistent (step a ev).
Proof.
  intros (Hup & Herr & Hsent & Hflight).
  destruct ev as [value | | i o].
  - rewrite step_typing. unfold consistent, settled_or_waiting. cbn.
    split; [apply toUpperCase_no_lowercase |].
    split; [exact Herr |]. split; [exact Hsent |]. exact Hflight.
  - destruct Hflight as [[Hnone Hidle] | (url & k & Hone & Hk & Hbusy & Hsd & Her)].
    + rewrite (step_press_enabled a Hidle).
      destruct (string_dec (ticker (ui a)) "") as [E | Hne].
      * rewrite (search_started_empty _ E).
        unfold consistent, settled_or_waiting. cbn.
        split; [exact Hup |]. split; [right; reflexivity |].
        split; [exact Hsent |]. left. auto.
      * destruct handleSearch_suspends as (k & Hk & Hstart).
        unfold search_started. rewrite (Hstart _ (ui a) Hne).
        unfold consistent, settled_or_waiting. cbn.
        split; [exact Hup |]. split; [left; reflexivity |].
        split.
        -- apply Forall_app. split; [exact Hsent |].
           constructor; [| constructor].
           apply asks_for_ticker_intro; assumption.
        -- right. exists (request_url (ticker (ui a))), k.
           rewrite Hnone. cbn. auto.
    + rewrite (step_press_disabled a Hbusy).
      unfold consistent. split; [exact Hup |]. split; [exact Herr |].
      split; [exact Hsent |]. right. exists url, k. auto.
  - destruct Hflight as [[Hnone Hidle] | (url & k & Hone & Hk & Hbusy & Hsd & Her)].
    + unfold step. rewrite Hnone. destruct i; cbn.
      all: unfold consistent; split; [exact Hup |]; split; [exact Herr |];
        split; [exact Hsent |]; left; auto.
    + unfold step. rewrite Hone. destruct i as [| i]; cbn.
      * destruct (Hk o) as (sd & er & Htruthy & Hrun). rewrite Hrun.
        unfold consistent, settled_or_waiting. cbn.
        split; [exact Hup |]. split.
        -- destruct er as [e |]; [right; apply Htruthy; reflexivity | exact Herr].
        -- split; [exact Hsent |]. left. auto.
      * destruct i; cbn.
        all: unfold consistent; split; [exact Hup |]; split; [exact Herr |];
          split; [exact Hsent |]; right; exists url, k; auto.
Qed.

Lemma mounted_consistent : consistent mounted.
Proof.
  unfold consistent, settled_or_waiting. cbn.
  split; [reflexivity |]. split; [left; reflexivity |].
  split; [constructor |]. left. auto.
Qed.

Lemma steps_consistent (evs : list happening) (a : app) :
  consistent a -> consistent (fold_left step evs a).
Proof.
  revert a.
  induction evs as [| ev rest IH]; intros a H; cbn [fold_left].
  - exact H.
  - apply IH, step_consistent, H.
Qed.

Lemma play_consistent (evs : list happening) : consistent (play evs).
Proof.
  apply steps_consistent, mounted_consistent.
Qed.

Lemma start_completed_exec {A : Type} (net : string -> settled) (t : task A)
    (s s' : state) (c : completion A) :
  start t s = Completed s' c -> final (exec net t s) = s'.
Proof.
  intros H. pose proof (exec_start net t s) as Hrun. rewrite H in Hrun.
  apply Hrun.
Qed.

(* ===================================================================== *)
(** ** More on [handleSearch] *)
(* ===================================================================== *)

(** X1: the promise of [handleSearch] is always fulfilled: whatever the
    ticker and however the request settles, no exception leaves it. *)
Theorem handleSearch_always_fulfils (net : string -> settled) (s : state) :
  result (search net s) = Normal tt.
Proof.
  destruct (string_dec (ticker s) "") as [E | Hne].
  - rewrite (search_empty net s E). reflexivity.
  - by_outcome net s Hne; reflexivity.
Qed.

(** X2: with a non-empty ticker [handleSearch] issues exactly one request,
    to the base URL followed by the ticker as it is. *)
Theorem search_sends_one_request (net : string -> settled) (s : state) :
  ticker s <> "" ->
  requests (trace (search net s)) = [request_url (ticker s)] /\
  request_url (ticker s) = "http://127.0.0.1:5000/api/stock_data/" ++ ticker s.
Proof.
  intros Hne. split; [| reflexivity].
  by_outcome net s Hne; reflexivity.
Qed.

Lemma search_sends_one_request_witness :
  requests (trace (search unreachable typed_aapl)) =
    ["http://127.0.0.1:5000/api/stock_data/AAPL"].
Proof.
  assert (Hne : ticker typed_aapl <> "") by discriminate.
  destruct (search_sends_one_request unreachable typed_aapl Hne) as [Hone _].
  exact Hone.
Defined.

(** X3: searching again with the same backend answer changes nothing: the
    state after two searches is the state after one. *)
Theorem search_idempotent (net : string -> settled) (s : state) :
  final (search net (final (search net s))) = final (search net s).
Proof.
  destruct (string_dec (ticker s) "") as [E | Hne].
  - rewrite (search_empty net s E).
    rewrite search_empty by (cbn; exact E). reflexivity.
  - assert (Hticker : ticker (final (search net s)) = ticker s)
      by apply search_ticker.
    assert (Hne' : ticker (final (search net s)) <> "") by congruence.
    remember (final (search net s)) as s1 eqn:Hs1.
    destruct (net (request_url (ticker s))) as [r | reason] eqn:Hnet.
    + destruct (read_error (data r)) as [e | e] eqn:Hread.
      * rewrite (search_read_throws net s r e Hne Hnet Hread) in Hs1.
        rewrite <- Hticker in Hnet.
        rewrite (search_read_throws net s1 r e Hne' Hnet Hread).
        rewrite Hs1. reflexivity.
      * destruct (truthy e) eqn:He.
        -- rewrite (search_error_field net s r e Hne Hnet Hread He) in Hs1.
           rewrite <- Hticker in Hnet.
           rewrite (search_error_field net s1 r e Hne' Hnet Hread He).
           rewrite Hs1. reflexivity.
        -- rewrite (search_data net s r e Hne Hnet Hread He) in Hs1.
           rewrite <- Hticker in Hnet.
           rewrite (search_data net s1 r e Hne' Hnet Hread He).
           rewrite Hs1. reflexivity.
    + rewrite (search_rejected net s reason Hne Hnet) in Hs1.
      rewrite <- Hticker in Hnet.
      rewrite (search_rejected net s1 reason Hne' Hnet).
      rewrite Hs1. reflexivity.
Qed.

(** X4: [console.error] is called at most once in a search, and when it is
    called the search ends with the transport message in [error] and
    [null] in [stockData]. *)
Theorem search_logs_failures_only (net : string -> settled) (s : state) :
  console (trace (search net s)) <> [] ->
  (exists err : jsval,
     console (trace (search net s)) = [[JStr "API request failed:"; err]]) /\
  error (final (search net s)) = JStr transport_message /\
  stockData (final (search net s)) = JNull.
Proof.
  destruct (string_dec (ticker s) "") as [E | Hne].
  - rewrite (search_empty net s E). cbn. congruence.
  - by_outcome net s Hne; cbn; intros H; try congruence.
    + split; [eexists; reflexivity | auto].
    + split; [eexists; reflexivity | auto].
Qed.

Lemma search_logs_failures_only_witness :
  (exists err : jsval,
     console (trace (search unreachable typed_aapl)) =
       [[JStr "API request failed:"; err]]) /\
  error (final (search unreachable typed_aapl)) = JStr transport_message /\
  stockData (final (search unreachable typed_aapl)) = JNull.
Proof.
  apply (search_logs_failures_only unreachable typed_aapl).
  discriminate.
Defined.

(** X5: a fulfilled body that is falsy without being [null] or
    [undefined] (the empty string, zero, [false]) is stored as
    [stockData] with no error, and the page then shows neither a chart nor
    an error paragraph nor the loading message. *)
Theorem search_falsy_body_shows_nothing (net : string -> settled) (s : state)
    (r : response) :
  ticker s <> "" ->
  net (request_url (ticker s)) = Fulfilled r ->
  truthy (data r) = false ->
  data r <> JNull ->
  data r <> JUndefined ->
  final (search net s) =
    {| ticker := ticker s; stockData := data r; loading := false; error := JNull |} /\
  chart_container (final (search net s)) =
    [Child (JBool false); Child JNull; Child (data r)].
Proof.
  intros Hne Hnet Hfalsy Hnull Hundef.
  assert (Hread : read_error (data r) = inr JUndefined).
  { apply read_error_no_field; try assumption.
    destruct (data r); try reflexivity; discriminate. }
  rewrite (search_data net s r JUndefined Hne Hnet Hread eq_refl).
  unfold chart_container, and_then. cbn. rewrite Hfalsy. auto.
Qed.

Lemma search_falsy_body_shows_nothing_witness :
  final (search (answers (ok (JStr ""))) typed_aapl) =
    {| ticker := "AAPL"; stockData := JStr ""; loading := false; error := JNull |} /\
  chart_container (final (search (answers (ok (JStr ""))) typed_aapl)) =
    [Child (JBool false); Child JNull; Child (JStr "")].
Proof.
  apply (search_falsy_body_shows_nothing (answers (ok (JStr ""))) typed_aapl
           (ok (JStr ""))).
  - discriminate.
  - reflexivity.
  - reflexivity.
  - discriminate.
  - discriminate.
Defined.

(** X6: after a search with a non-empty ticker the page shows no loading
    message, and it shows the error paragraph or the chart but never both:
    either [error] is [null] and the chart is there when [stockData] is
    truthy, or the error paragraph is there and [stockData] is [null]. *)
Theorem search_shows_error_or_chart (net : string -> settled) (s : state) :
  ticker s <> "" ->
  let s' := final (search net s) in
  (error s' = JNull /\
   chart_container s' =
     [Child (JBool false); Child JNull;
      and_then (stockData s') (chart (stockData s'))]) \/
  (stockData s' = JNull /\
   chart_container s' =
     [Child (JBool false); error_message (error s'); Child JNull]).
Proof.
  intros Hne. cbn zeta.
  by_outcome net s Hne; unfold chart_container, and_then; cbn.
  - right. auto.
  - right. rewrite He. auto.
  - left. auto.
  - right. auto.
Qed.

Lemma search_shows_error_or_chart_witness :
  chart_container (final (search (answers (ok sample_series)) typed_aapl)) =
    [Child (JBool false); Child JNull; chart sample_series] /\
  chart_container (final (search (answers (ok not_found)) typed_aapl)) =
    [Child (JBool false); error_message (JStr "not found"); Child JNull].
Proof.
  assert (Hne : ticker typed_aapl <> "") by discriminate.
  split.
  - destruct (search_shows_error_or_chart (answers (ok sample_series)) typed_aapl Hne)
      as [[_ H] | [H _]]; [exact H | discriminate H].
  - destruct (search_shows_error_or_chart (answers (ok not_found)) typed_aapl Hne)
      as [[H _] | [_ H]]; [discriminate H | exact H].
Defined.

(* ===================================================================== *)
(** ** The component under any sequence of committed events *)
(* ===================================================================== *)

(** X7: when every event is handled in a task of its own, so that React
    has committed the updates of one event before the next is dispatched,
    at most one request is in flight and [loading] is true exactly while
    one is, however requests settle: the button is disabled from the press
    to the [finally] block. *)
Theorem one_request_in_flight (evs : list happening) :
  length (inflight (play evs)) <= 1 /\
  (loading (ui (play evs)) = true <-> inflight (play evs) <> []).
Proof.
  destruct (play_consistent evs) as (_ & _ & _ & Hflight).
  destruct Hflight as [[Hnone Hidle] | (url & k & Hone & _ & Hbusy & _)].
  - rewrite Hnone, Hidle. cbn. split; [lia |].
    split; intros H; congruence.
  - rewrite Hone, Hbusy. cbn. split; [lia |].
    split; intros H; [discriminate | reflexivity].
Qed.

(** X8: every request the component ever sends asks for a ticker that is
    not empty and has no lower-case letter. *)
Theorem requests_ask_for_uppercase_tickers (evs : list happening) :
  Forall asks_for_ticker (sent (play evs)).
Proof.
  apply (play_consistent evs).
Qed.

(** X9: in every state the component is in between committed events,
    when [loading] is true the chart container that [App] renders holds
    the loading message and neither an error paragraph nor a chart
    ([error] and [stockData] are [null]), and the button that [App]
    renders carries [disabled] and the label of a search under way. *)
Theorem loading_shows_only_the_message (evs : list happening) :
  loading (ui (play evs)) = true ->
  chart_container (ui (play evs)) = [loading_message; Child JNull; Child JNull] /\
  button (ui (play evs)) =
    Element "button"
      [("onClick", OnClick (handleSearch (ticker (ui (play evs)))));
       ("disabled", Val (JBool true))]
      [Child (JStr "検索中...")].
Proof.
  intros Hbusy.
  destruct (play_consistent evs) as (_ & _ & _ & Hflight).
  destruct Hflight as [[_ Hidle] | (url & k & _ & _ & _ & Hsd & Her)];
    [congruence |].
  split.
  - unfold chart_container, and_then. rewrite Hbusy, Hsd, Her. reflexivity.
  - unfold button. rewrite Hbusy. reflexivity.
Qed.

Lemma loading_shows_only_the_message_witness :
  chart_container (ui (play [Typing "aapl"; Press; Typing "msft"])) =
    [loading_message; Child JNull; Child JNull] /\
  button (ui (play [Typing "aapl"; Press; Typing "msft"])) =
    Element "button"
      [("onClick", OnClick (handleSearch "MSFT"));
       ("disabled", Val (JBool true))]
      [Child (JStr "検索中...")].
Proof.
  apply (loading_shows_only_the_message [Typing "aapl"; Press; Typing "msft"]).
  reflexivity.
Defined.

(** X10: the [error] cell only ever holds [null] or a truthy value, so the
    second child of the chart container is [null] or the error paragraph,
    never a stray falsy value. *)
Theorem error_is_null_or_truthy (evs : list happening) :
  (error (ui (play evs)) = JNull /\
   nth_error (chart_container (ui (play evs))) 1 = Some (Child JNull)) \/
  (truthy (error (ui (play evs))) = true /\
   nth_error (chart_container (ui (play evs))) 1 =
     Some (error_message (error (ui (play evs))))).
Proof.
  destruct (play_consistent evs) as (_ & [Hnull | Htruthy] & _).
  - left. unfold chart_container, and_then. rewrite Hnull. auto.
  - right. unfold chart_container, and_then. cbn. rewrite Htruthy. auto.
Qed.

(** X11: on an idle component, pressing the button and letting the request
    settle leaves the state that the search run to completion leaves. *)
Theorem press_then_arrival_is_search (a : app) (o : settled) :
  inflight a = [] ->
  loading (ui a) = false ->
  ui (step (step a Press) (Arrival 0 o)) = final (search (fun _ => o) (ui a)) /\
  inflight (step (step a Press) (Arrival 0 o)) = [].
Proof.
  intros Hnone Hidle. rewrite (step_press_enabled a Hidle).
  destruct (string_dec (ticker (ui a)) "") as [E | Hne].
  - rewrite (search_started_empty _ E), (search_empty _ _ E).
    unfold step, advance. cbn. rewrite Hnone. cbn. auto.
  - destruct handleSearch_suspends as (k & Hk & Hstart).
    pose proof (exec_start (fun _ => o) (handleSearch (ticker (ui a))) (ui a)) as Hrun.
    unfold search, search_started. rewrite (Hstart _ (ui a) Hne) in *.
    destruct Hrun as [Hfinal _]. rewrite Hfinal.
    destruct (Hk o) as (sd & er & _ & Hback).
    unfold step, advance. cbn. rewrite Hnone. cbn.
    rewrite (start_completed_exec _ _ _ _ _ (Hback _)).
    rewrite Hback. cbn. auto.
Qed.

Lemma press_then_arrival_is_search_witness :
  ui (step (step (play [Typing "aapl"]) Press) (Arrival 0 (Fulfilled (ok sample_series)))) =
    final (search (answers (ok sample_series)) typed_aapl).
Proof.
  destruct (press_then_arrival_is_search (play [Typing "aapl"])
              (Fulfilled (ok sample_series)) eq_refl eq_refl) as [Hui _].
  exact Hui.
Defined.

(** X12: editing the input and the arrival of a response commute: a
    response that arrives after the input was edited does what it would
    have done before, so the result shown is the one of the ticker that
    was searched, not of the text now in the input. *)
Theorem typing_commutes_with_arrival (evs : list happening) (value : string)
    (i : nat) (o : settled) :
  step (step (play evs) (Typing value)) (Arrival i o) =
  step (step (play evs) (Arrival i o)) (Typing value).
Proof.
  destruct (play_consistent evs) as (_ & _ & _ & Hflight).
  generalize dependent (play evs). intros a Hflight.
  rewrite !step_typing.
  destruct Hflight as [[Hnone _] | (url & k & Hone & Hk & _)];
    destruct a as [u fl sn]; cbn [ui inflight sent] in *; subst fl;
    unfold step; cbn [ui inflight sent].
  - destruct i; reflexivity.
  - destruct i as [| i]; cbn [nth_error].
    + destruct (Hk o) as (sd & er & _ & Hback). rewrite !Hback. reflexivity.
    + destruct i; reflexivity.
Qed.

(** X13: typing a text into a component that is not loading and pressing
    the button sends nothing when the text is empty, and otherwise sends
    exactly the request for the upper-cased text, whatever characters it
    holds. *)
Theorem type_then_press (a : app) (value : string) :
  loading (ui a) = false ->
  sent (step (step a (Typing value)) Press) =
    match value with
    | EmptyString => sent a
    | String _ _ => (sent a ++ [request_url (toUpperCase value)])%list
    end.
Proof.
  intros Hidle. rewrite step_typing.
  rewrite step_press_enabled by exact Hidle.
  destruct value as [| c rest]; [reflexivity |].
  destruct handleSearch_suspends as (k & _ & Hstart).
  unfold search_started. cbn [ui apply ticker].
  rewrite Hstart by apply toUpperCase_nonempty.
  reflexivity.
Qed.

Lemma type_then_press_witness :
  sent (step (step mounted (Typing "7203.t")) Press) =
    ["http://127.0.0.1:5000/api/stock_data/7203.T"] /\
  sent (step (step mounted (Typing "straße")) Press) =
    ["http://127.0.0.1:5000/api/stock_data/STRASSE"].
Proof.
  split.
  - apply (type_then_press mounted "7203.t"). reflexivity.
  - apply (type_then_press mounted "straße"). reflexivity.
Defined.

Lemma step_sent_length (a : app) (ev : happening) :
  consistent a ->
  length (sent (step a ev)) <=
    length (sent a) + match ev with Press => 1 | _ => 0 end.
Proof.
  intros (_ & _ & _ & Hflight).
  destruct ev as [value | | i o].
  - rewrite step_typing. cbn. lia.
  - destruct (loading (ui a)) eqn:Hload.
    + rewrite (step_press_disabled a Hload). lia.
    + rewrite (step_press_enabled a Hload).
      destruct (search_started (ui a)); cbn; [lia |].
      rewrite length_app. cbn. lia.
  - destruct Hflight as [[Hnone _] | (url & k & Hone & Hk & _)].
    + unfold step. rewrite Hnone. destruct i; cbn; lia.
    + unfold step. rewrite Hone. destruct i as [| i]; cbn [nth_error].
      * destruct (Hk o) as (sd & er & _ & Hback). rewrite Hback. cbn. lia.
      * destruct i; cbn; lia.
Qed.

Lemma steps_sent_length (evs : list happening) (a : app) :
  consistent a ->
  length (sent (fold_left step evs a)) <= length (sent a) + presses evs.
Proof.
  revert a.
  induction evs as [| ev rest IH]; intros a H; cbn [fold_left presses].
  - lia.
  - pose proof (step_sent_length a ev H) as Hstep.
    pose proof (IH _ (step_consistent a ev H)) as Hrest.
    destruct ev; lia.
Qed.

(** X14: the component sends at most one request per press of the button;
    editing the input and arriving responses send none. *)
Theorem requests_bounded_by_presses (evs : list happening) :
  length (sent (play evs)) <= presses evs.
Proof.
  apply (steps_sent_length evs mounted mounted_consistent).
Qed.
